(** * RISE for JupyterLab: notebook metadata handled by the command handlers
      and by the theme picker

    Shallow embedding of [packages/lab/src/index.ts] (the command handlers of
    the [jupyterlab-rise:plugin] plugin and its [widgetAdded] handler) and of
    [packages/lab/src/ThemePicker.tsx] ([ThemePickerDialog]).

    The host (JupyterLab) is external to the repository.  It is modelled by
    what the handlers call on it: a metadata store per notebook model and per
    cell model ([getMetadata], [setMetadata], [deleteMetadata]), the document
    context's [save], the dialogs, the DOM elements the picker touches, and a
    chronological log of those calls.  Where a handler awaits a promise of
    the host, how that promise is settled is given with the call. *)

From Stdlib Require Import ZArith String Ascii Bool Lia.
From stdpp Require Import base option list gmap strings pretty.

Local Open Scope string_scope.
Local Open Scope Z_scope.
Local Open Scope nat_scope.
Local Open Scope list_scope.

Set Warnings "-register-all".

(** ** JSON values and the JavaScript operations the handlers apply to them *)

Module JS.

(** A JSON value.  An object keeps its properties in enumeration order.
    Numbers are carried as integers: the handlers only test them for
    truthiness, compare them or coerce them with [|]. *)
Inductive json : Type :=
| JNull
| JBool (b : bool)
| JNum (n : Z)
| JStr (s : string)
| JArr (items : list json)
| JObj (props : list (string * json)).

(** A JavaScript value read from JSON data: [None] is [undefined]. *)
Definition jsval : Type := option json.

Definition jsobj : Type := list (string * json).

(** [o[k]] on the properties of an object. *)
Fixpoint obj_get (k : string) (o : jsobj) : jsval :=
  match o with
  | [] => None
  | (k', v) :: o' => if String.eqb k' k then Some v else obj_get k o'
  end.

(** [o[k] = v]: an existing property keeps its place, a new one is added
    last. *)
Fixpoint obj_set (k : string) (v : json) (o : jsobj) : jsobj :=
  match o with
  | [] => [(k, v)]
  | (k', v') :: o' =>
      if String.eqb k' k then (k, v) :: o' else (k', v') :: obj_set k v o'
  end.

(** [delete o[k]]. *)
Fixpoint obj_delete (k : string) (o : jsobj) : jsobj :=
  match o with
  | [] => []
  | (k', v') :: o' =>
      if String.eqb k' k then obj_delete k o' else (k', v') :: obj_delete k o'
  end.

(** [Object.keys(o)]. *)
Definition obj_keys (o : jsobj) : list string := map fst o.

(** Truthiness ([if (v)], [v || d], [!!v]). *)
Definition truthy (v : jsval) : bool :=
  match v with
  | None => false
  | Some JNull => false
  | Some (JBool b) => b
  | Some (JNum n) => negb (n =? 0)%Z
  | Some (JStr s) => negb (String.eqb s "")
  | Some (JArr _) => true
  | Some (JObj _) => true
  end.

(** [v || {}]. *)
Definition or_empty (v : jsval) : json :=
  match v with
  | Some x => if truthy v then x else JObj []
  | None => JObj []
  end.

(** [v ?? d]: only [undefined] and [null] give way to [d]. *)
Definition nullish (v : jsval) (d : json) : json :=
  match v with
  | None => d
  | Some JNull => d
  | Some x => x
  end.

(** [v[k]] for a key [k] that is neither an index nor ["length"] (the
    handlers read ['theme'], ['autolaunch'] and ['slide_type'] only): such a
    key is a property of objects alone.  [v] is never [null] where the
    handlers read a property: [||] or [??] comes first. *)
Definition get_named (v : json) (k : string) : jsval :=
  match v with
  | JObj o => obj_get k o
  | _ => None
  end.

(** [v[k] = x] in strict mode (the sources are ES modules), for such a key
    [k].  On a primitive it throws a [TypeError] ([None]); on an array it
    adds a property that is no element of the array, so the JSON value of
    the array is what it was. *)
Definition set_named (v : json) (k : string) (x : json) : option json :=
  match v with
  | JObj o => Some (JObj (obj_set k x o))
  | JArr l => Some (JArr l)
  | _ => None
  end.

Fixpoint chars (s : string) : list string :=
  match s with
  | EmptyString => []
  | String c s' => String c EmptyString :: chars s'
  end.

(** [{ ...v }]: the own enumerable properties of [v].  An array and a string
    spread to their indices, the other primitives to nothing. *)
Definition spread (v : json) : jsobj :=
  match v with
  | JObj o => o
  | JArr l => imap (fun i x => (pretty i, x)) l
  | JStr s => imap (fun i c => (pretty i, JStr c)) (chars s)
  | _ => []
  end.

(** [a === b].  Two objects or arrays are compared by identity; the operands
    the handlers compare are a command argument and a value read from the
    metadata, which never are the same object. *)
Definition strict_eq (a b : jsval) : bool :=
  match a, b with
  | None, None => true
  | Some JNull, Some JNull => true
  | Some (JBool x), Some (JBool y) => Bool.eqb x y
  | Some (JNum x), Some (JNum y) => (x =? y)%Z
  | Some (JStr x), Some (JStr y) => String.eqb x y
  | _, _ => false
  end.

Definition wrap32 (z : Z) : Z := ((z + 2 ^ 31) mod 2 ^ 32 - 2 ^ 31)%Z.

(** [ToInt32], as the operands of [|] are coerced.  A string operand goes
    through the [StringNumericLiteral] grammar, whose rounding of long
    literals the language leaves to the implementation, and an array operand
    through its [join]: what the engine answers for them is [engine], given
    with the call. *)
Definition to_int32 (engine : json -> Z) (v : jsval) : Z :=
  match v with
  | None => 0%Z
  | Some JNull => 0%Z
  | Some (JBool b) => (if b then 1 else 0)%Z
  | Some (JNum n) => wrap32 n
  | Some (JObj _) => 0%Z
  | Some (JStr x) => engine (JStr x)
  | Some (JArr l) => engine (JArr l)
  end.

(** [a | b]. *)
Definition bit_or (engine : json -> Z) (a b : jsval) : json :=
  JNum (Z.lor (to_int32 engine a) (to_int32 engine b)).

(** [hay.includes(needle)]. *)
Fixpoint includes (needle hay : string) : bool :=
  String.prefix needle hay
  || match hay with
     | EmptyString => false
     | String _ hay' => includes needle hay'
     end.

(** [s.toUpperCase()] on ASCII text. *)
Definition upper_ascii (c : ascii) : ascii :=
  let n := nat_of_ascii c in
  if (97 <=? n) && (n <=? 122) then ascii_of_nat (n - 32) else c.

Fixpoint toUpperCase (s : string) : string :=
  match s with
  | EmptyString => EmptyString
  | String c s' => String (upper_ascii c) (toUpperCase s')
  end.

Definition is_object (v : json) : bool :=
  match v with JObj _ => true | _ => false end.

End JS.

Import JS.

(** ** The host: notebook panels, the shell, the DOM and the log of calls *)

Module Host.

(** A call of a handler on the host, in the order the calls are made. *)
Inductive Event : Type :=
| EvGetMetadata (panel : nat) (key : string)
| EvSetMetadata (panel : nat) (key : string) (value : json)
| EvCellGetMetadata (panel cell : nat) (key : string)
| EvCellSetMetadata (panel cell : nat) (key : string) (value : json)
| EvCellDeleteMetadata (panel cell : nat) (key : string)
| EvSave (panel : nat)
| EvShowDialog (title : string)
| EvStatus (text : string)
| EvIframeSrc (index : nat)
| EvUpdate
| EvBodyClassAdd (cls : string)
| EvToolbarInsert (panel : nat) (name : string)
| EvExecute (command : string) (args : jsobj)
| EvActivateById (id : json)
| EvWindowOpen (panel : nat)
| EvRequestFullscreen
| EvExitFullscreen
| EvFocus
| EvOpenPreview (panel : nat)
| EvSetActiveCellIndex (index : option nat)
| EvConnect (signal : string)
| EvConsoleLog.

(** How a promise of the host that a handler awaits is settled. *)
Inductive Settled : Type := Fulfilled | Rejected.

Record Iframe : Type := { src : string; loads : nat }.

Record StatusElement : Type := { innerText : string; color : string }.

(** [document]: the element with id [rise-theme-status] when the picker is
    rendered, the iframes in document order, the classes of [body], and
    whether an element is in full screen. *)
Record Document : Type := {
  statusEl : option StatusElement;
  iframes : list Iframe;
  bodyClasses : list string;
  fullscreenElement : bool
}.

(** A [NotebookPanel]: the metadata of its notebook model ([None] when
    [panel.model] is null; [panel.content.model] is the same model), the
    metadata of its cell models, and the index of the active cell of its
    content ([None] when there is none). *)
Record NotebookPanel : Type := {
  model : option (gmap string json);
  cells : list (gmap string json);
  activeCell : option nat
}.

(** A widget of the shell: a notebook panel of the notebook tracker, a RISE
    preview of the preview tracker (with its iframe, if any, and whether the
    document of the iframe has an element in full screen), or another one. *)
Inductive ShellWidget : Type :=
| NotebookWidget (panel : nat)
| PreviewWidget (iframe : option bool)
| OtherWidget.

(** What the handlers of the plugin see of the application.
    [settings] is the variable of that name in [activate]: [None] until the
    setting registry has answered, then the composite value of the setting
    ['autolaunch']. *)
Record World : Type := {
  panels : list NotebookPanel;
  currentWidget : option nat;
  shellCurrent : option ShellWidget;
  shellMain : list (string * ShellWidget);
  document : Document;
  appName : string;
  settings : option jsval;
  calls : list Event
}.

Definition set_panels (ps : list NotebookPanel) (w : World) : World :=
  {| panels := ps; currentWidget := currentWidget w;
     shellCurrent := shellCurrent w; shellMain := shellMain w;
     document := document w; appName := appName w; settings := settings w;
     calls := calls w |}.

Definition set_document (d : Document) (w : World) : World :=
  {| panels := panels w; currentWidget := currentWidget w;
     shellCurrent := shellCurrent w; shellMain := shellMain w;
     document := d; appName := appName w; settings := settings w;
     calls := calls w |}.

Definition set_shellCurrent (c : option ShellWidget) (w : World) : World :=
  {| panels := panels w; currentWidget := currentWidget w;
     shellCurrent := c; shellMain := shellMain w;
     document := document w; appName := appName w; settings := settings w;
     calls := calls w |}.

Definition set_shell (c : option ShellWidget)
    (main : list (string * ShellWidget)) (w : World) : World :=
  {| panels := panels w; currentWidget := currentWidget w;
     shellCurrent := c; shellMain := main;
     document := document w; appName := appName w; settings := settings w;
     calls := calls w |}.

(** The call [e] is made: it is added at the end of the log. *)
Definition emit (e : Event) (w : World) : World :=
  {| panels := panels w; currentWidget := currentWidget w;
     shellCurrent := shellCurrent w; shellMain := shellMain w;
     document := document w; appName := appName w; settings := settings w;
     calls := calls w ++ [e] |}.

(** [notebookTracker.currentWidget], with its index. *)
Definition tracker_current (w : World) : option (nat * NotebookPanel) :=
  match currentWidget w with
  | Some i =>
      match panels w !! i with
      | Some p => Some (i, p)
      | None => None
      end
  | None => None
  end.

(** [app.shell.currentWidget] when it is a panel of the notebook tracker
    ([current && notebookTracker.has(current)]). *)
Definition shell_notebook (w : World) : option (nat * NotebookPanel) :=
  match shellCurrent w with
  | Some (NotebookWidget i) =>
      match panels w !! i with
      | Some p => Some (i, p)
      | None => None
      end
  | _ => None
  end.

(** [panel.content.activeCell?.model], with the index of the cell. *)
Definition active_cell_model (p : NotebookPanel)
  : option (nat * gmap string json) :=
  match activeCell p with
  | Some c =>
      match cells p !! c with
      | Some cm => Some (c, cm)
      | None => None
      end
  | None => None
  end.

(** [model.getMetadata(key)] on the notebook model of panel [i]. *)
Definition getMetadata (i : nat) (key : string) (w : World) : jsval * World :=
  (match panels w !! i with
   | Some p =>
       match model p with
       | Some m => m !! key
       | None => None
       end
   | None => None
   end,
   emit (EvGetMetadata i key) w).

Definition panel_setMetadata (key : string) (v : json) (p : NotebookPanel)
  : NotebookPanel :=
  {| model := match model p with
              | Some m => Some (<[key := v]> m)
              | None => None
              end;
     cells := cells p; activeCell := activeCell p |}.

(** [model.setMetadata(key, v)] on the notebook model of panel [i]. *)
Definition setMetadata (i : nat) (key : string) (v : json) (w : World)
  : World :=
  emit (EvSetMetadata i key v)
    (set_panels
       (match panels w !! i with
        | Some p => <[i := panel_setMetadata key v p]> (panels w)
        | None => panels w
        end) w).

Definition panel_alter_cell (c : nat)
    (f : gmap string json -> gmap string json) (p : NotebookPanel)
  : NotebookPanel :=
  {| model := model p;
     cells := match cells p !! c with
              | Some cm => <[c := f cm]> (cells p)
              | None => cells p
              end;
     activeCell := activeCell p |}.

Definition alter_cell (i c : nat)
    (f : gmap string json -> gmap string json) (w : World) : World :=
  set_panels
    (match panels w !! i with
     | Some p => <[i := panel_alter_cell c f p]> (panels w)
     | None => panels w
     end) w.

(** [cellModel.getMetadata(key)] on cell [c] of panel [i]. *)
Definition cell_getMetadata (i c : nat) (key : string) (w : World)
  : jsval * World :=
  (match panels w !! i with
   | Some p =>
       match cells p !! c with
       | Some cm => cm !! key
       | None => None
       end
   | None => None
   end,
   emit (EvCellGetMetadata i c key) w).

(** [cellModel.setMetadata(key, v)]. *)
Definition cell_setMetadata (i c : nat) (key : string) (v : json) (w : World)
  : World :=
  emit (EvCellSetMetadata i c key v) (alter_cell i c (insert key v) w).

(** [cellModel.deleteMetadata(key)]. *)
Definition cell_deleteMetadata (i c : nat) (key : string) (w : World)
  : World :=
  emit (EvCellDeleteMetadata i c key) (alter_cell i c (delete key) w).

(** [current.context.save()] is called ([void]: not awaited by the caller
    in the picker, awaited in the preview commands). *)
Definition save (i : nat) (w : World) : World := emit (EvSave i) w.

Definition showDialog (title : string) (w : World) : World :=
  emit (EvShowDialog title) w.

(** The notebook-level metadata stored under [key] in panel [i]. *)
Definition metadata_at (w : World) (i : nat) (key : string) : jsval :=
  match panels w !! i with
  | Some p =>
      match model p with
      | Some m => m !! key
      | None => None
      end
  | None => None
  end.

(** The metadata stored under [key] in cell [c] of panel [i]. *)
Definition cell_metadata_at (w : World) (i c : nat) (key : string) : jsval :=
  match panels w !! i with
  | Some p =>
      match cells p !! c with
      | Some cm => cm !! key
      | None => None
      end
  | None => None
  end.

End Host.

Import Host.

(** ** [ThemePicker.tsx]: the [ThemePickerDialog] widget *)

Module ThemePicker.

(** The ids of the themes listed by [render]. *)
Definition themes : list string :=
  ["black"; "white"; "simple"; "sky"; "beige"; "blood"; "night"; "moon";
   "league"; "dracula"; "solarized"; "serif"].

Definition reload (f : Iframe) : Iframe :=
  {| src := src f; loads := S (loads f) |}.

(** The body of [_refreshRisePreview] on the iframes from index [i] on: the
    iframes after the loop, and the assignments to [src] in the order they
    are made. *)
Fixpoint refresh (i : nat) (fs : list Iframe) : list Iframe * list Event :=
  match fs with
  | [] => ([], [])
  | f :: fs' =>
      let r := refresh (S i) fs' in
      if includes "reveal" (src f)
      then (reload f :: r.1, EvIframeSrc i :: r.2)
      else (f :: r.1, r.2)
  end.

Definition set_iframes (fs : list Iframe) (d : Document) : Document :=
  {| statusEl := statusEl d; iframes := fs; bodyClasses := bodyClasses d;
     fullscreenElement := fullscreenElement d |}.

Definition _refreshRisePreview (w : World) : World :=
  let r := refresh 0 (iframes (document w)) in
  foldl (fun w' e => emit e w') (set_document (set_iframes r.1 (document w)) w)
    r.2.

(** The status message of [updateMetadata]: written only when the element
    exists.  The translated text is kept by its argument,
    [themeName.toUpperCase()]. *)
Definition set_status (themeName : string) (w : World) : World :=
  match statusEl (document w) with
  | Some _ =>
      emit (EvStatus (toUpperCase themeName))
        (set_document
           {| statusEl := Some {| innerText := toUpperCase themeName;
                                  color := "var(--jp-success-color1)" |};
              iframes := iframes (document w);
              bodyClasses := bodyClasses (document w);
              fullscreenElement := fullscreenElement (document w) |} w)
  | None => w
  end.

(** [ThemePickerDialog.updateMetadata(themeName)]. *)
Definition updateMetadata (themeName : string) (w : World) : World :=
  match tracker_current w with
  | Some (i, p) =>
      match model p with
      | Some _ =>
          let r := getMetadata i "rise" w in
          let riseMetadata := or_empty r.1 in
          let newMetadata :=
            JObj (obj_set "theme" (JStr themeName) (spread riseMetadata)) in
          let w2 := setMetadata i "rise" newMetadata r.2 in
          let w3 := set_status themeName w2 in
          let w4 := save i w3 in
          let w5 := _refreshRisePreview w4 in
          emit EvUpdate w5
      | None => w
      end
  | None => w
  end.

(** What [render] reads and computes before it builds the grid:
    [activeTheme], from the metadata of the current notebook. *)
Definition render (w : World) : json * World :=
  match tracker_current w with
  | Some (i, p) =>
      match model p with
      | Some _ =>
          let r := getMetadata i "rise" w in
          let theme := get_named (or_empty r.1) "theme" in
          (match theme with
           | Some t => if truthy theme then t else JStr "black"
           | None => JStr "black"
           end, r.2)
      | None => (JStr "black", w)
      end
  | None => (JStr "black", w)
  end.

(** The ids of the items of the grid for which [render] computes [isActive]
    ([theme.id === activeTheme]), in the order of the grid. *)
Definition active_items (w : World) : list string :=
  List.filter (fun id => strict_eq (Some (JStr id)) (Some (render w).1))
    themes.

End ThemePicker.

(** ** [index.ts]: the commands of the plugin *)

Module Rise.

(** How a handler ends: it returns, or a [TypeError] escapes it. *)
Inductive Completion : Type :=
| Returned (w : World)
| Threw (w : World).

Definition world_of (c : Completion) : World :=
  match c with
  | Returned w => w
  | Threw w => w
  end.

Definition slideTypes : list string :=
  ["slide"; "subslide"; "fragment"; "skip"; "notes"].

(** [RISE:slideshow]: [window.open] follows the awaited [context.save()]
    when that is fulfilled; when it is rejected, so is the command. *)
Definition openRise (saved : Settled) (w : World) : Completion :=
  match tracker_current w with
  | Some (i, _) =>
      match saved with
      | Fulfilled => Returned (emit (EvWindowOpen i) (save i w))
      | Rejected => Threw (save i w)
      end
  | None => Returned w
  end.

(** [isEnabled()], the condition of [RISE:slideshow] and [RISE:preview]:
    the notebook tracker has a current widget and the shell shows it. *)
Definition isEnabled (w : World) : bool :=
  match tracker_current w, shellCurrent w with
  | Some (i, _), Some (NotebookWidget j) => Nat.eqb i j
  | _, _ => false
  end.

(** [getCurrent(args)]. *)
Definition getCurrent (args : jsobj) (w : World)
  : option (nat * NotebookPanel) * World :=
  let widget := tracker_current w in
  let activate := negb (strict_eq (obj_get "activate" args)
                          (Some (JBool false))) in
  match widget with
  | Some (i, _) =>
      if activate
      then (widget,
            emit (EvActivateById (JStr (pretty i)))
              (set_shellCurrent (Some (NotebookWidget i)) w))
      else (widget, w)
  | None => (widget, w)
  end.

(** What the host answers while [RISE:preview] runs: how [context.save()]
    and the command ['docmanager:open'] are settled, the current widget and
    the widgets of the main area of the shell once the preview is open, and
    whether [widget.ready] of the preview is resolved by the time its [then]
    is called. *)
Record PreviewHost : Type := {
  saveSettles : Settled;
  openSettles : Settled;
  shellAfterOpen : option ShellWidget;
  mainAfterOpen : list (string * ShellWidget);
  readyResolved : bool
}.

(** The callback of [widget.ready.then(...)] in [RISE:preview]. *)
Definition previewReady_then (w : World) : World :=
  showDialog "Switch to full screen" w.

(** The callback of [.catch(...)] in [RISE:preview]. *)
Definition previewReady_catch (w : World) : World := emit EvConsoleLog w.

(** [RISE:preview].  Each step after an [await] is made when the awaited
    promise is fulfilled; when it is rejected, so is the command.  The
    callback of [widget.ready] runs before whatever awaits the command goes
    on when [widget.ready] is resolved already; otherwise the host runs it,
    or the one of [catch], later.  The preview widget itself belongs to
    [preview.ts]. *)
Definition risePreview (h : PreviewHost) (args : jsobj) (w : World)
  : Completion :=
  let r := getCurrent args w in
  match r.1 with
  | Some (i, p) =>
      let w1 := save i r.2 in
      match saveSettles h with
      | Fulfilled =>
          let w2 := emit (EvOpenPreview i) w1 in
          match openSettles h with
          | Fulfilled =>
              let w3 := set_shell (shellAfterOpen h) (mainAfterOpen h) w2 in
              let w4 := emit (EvSetActiveCellIndex (activeCell p)) w3 in
              let w5 := emit (EvConnect "activeCellChanged") w4 in
              let w6 := emit (EvConnect "disposed") w5 in
              if strict_eq (obj_get "fullscreen" args) (Some (JBool true))
              then Returned (if readyResolved h then previewReady_then w6
                             else w6)
              else Returned w6
          | Rejected => Threw w2
          end
      | Rejected => Threw w1
      end
  | None => Returned r.2
  end.

Definition shell_find (id : string) (w : World) : option ShellWidget :=
  match List.find (fun p => String.eqb p.1 id) (shellMain w) with
  | Some p => Some p.2
  | None => None
  end.

(** What the host answers while [RISE:fullscreen-plugin] runs: whether
    [ready] of the preview is resolved by the time its [then] is called, and
    how [document.exitFullscreen()] is settled. *)
Record FullScreenHost : Type := {
  iframeReady : bool;
  exitSettles : Settled
}.

(** [RISE:fullscreen-plugin]: [iframe.focus()] is called at once and the
    request for full screen in the callback of [ready]; leaving full screen
    ([document.exitFullscreen], which browsers have) is awaited, and
    [iframe.focus()] follows when it is fulfilled. *)
Definition riseFullScreen (h : FullScreenHost) (args : jsobj) (w : World)
  : Completion :=
  let id := obj_get "id" args in
  let w1 := match id with
            | Some x => if truthy id then emit (EvActivateById x) w else w
            | None => w
            end in
  let current := match id with
                 | Some (JStr x) =>
                     if truthy id then shell_find x w1 else shellCurrent w1
                 | Some _ => if truthy id then None else shellCurrent w1
                 | None => shellCurrent w1
                 end in
  match current with
  | Some (PreviewWidget (Some inner)) =>
      let d := document w1 in
      if negb (fullscreenElement d) && negb inner
      then Returned (if iframeReady h
                     then emit EvRequestFullscreen (emit EvFocus w1)
                     else emit EvFocus w1)
      else
        match exitSettles h with
        | Fulfilled =>
            Returned
              (emit EvFocus
                 (set_document
                    {| statusEl := statusEl d; iframes := iframes d;
                       bodyClasses := bodyClasses d;
                       fullscreenElement := false |}
                    (emit EvExitFullscreen w1)))
        | Rejected => Threw (emit EvExitFullscreen w1)
        end
  | _ => Returned w1
  end.

(** The callback of the promise of the full screen dialog in [RISE:preview],
    for the preview of id [id]: the full screen command is executed when the
    dialog was accepted. *)
Definition fullScreenDialog_then (h : FullScreenHost) (accept : bool)
    (id : string) (w : World) : World :=
  if accept
  then world_of
         (riseFullScreen h [("id", JStr id)]
            (emit (EvExecute "RISE:fullscreen-plugin" [("id", JStr id)]) w))
  else w.

(** [newValue] in [RISE:set-slide-type]: the copy [{ ...currentValue }]
    with ['slide_type'] set to a truthy [value], removed otherwise. *)
Definition new_slideshow (value : jsval) (currentValue : json) : jsobj :=
  match value with
  | Some v =>
      if truthy value
      then obj_set "slide_type" v (spread currentValue)
      else obj_delete "slide_type" (spread currentValue)
  | None => obj_delete "slide_type" (spread currentValue)
  end.

(** [RISE:set-slide-type], [execute]. *)
Definition riseSetSlideType (args : jsobj) (w : World) : World :=
  let value := obj_get "type" args in
  match shell_notebook w with
  | Some (i, p) =>
      match active_cell_model p with
      | Some (c, _) =>
          let r := cell_getMetadata i c "slideshow" w in
          let currentValue := nullish r.1 (JObj []) in
          if negb (strict_eq value (get_named currentValue "slide_type"))
          then
            let newValue := new_slideshow value currentValue in
            if 0 <? length (obj_keys newValue)
            then cell_setMetadata i c "slideshow" (JObj newValue) r.2
            else cell_deleteMetadata i c "slideshow" r.2
          else r.2
      | None => w
      end
  | None => w
  end.

(** [RISE:set-slide-type], [isToggled]. *)
Definition riseSetSlideType_isToggled (args : jsobj) (w : World) : bool :=
  let value := obj_get "type" args in
  match shell_notebook w with
  | Some (i, p) =>
      match active_cell_model p with
      | Some (c, cm) =>
          let currentValue := nullish (cm !! "slideshow") (JObj []) in
          strict_eq (get_named currentValue "slide_type") value
          && truthy value
      | None => false
      end
  | None => false
  end.

(** [RISE:set-slide-type], [isEnabled]. *)
Definition riseSetSlideType_isEnabled (args : jsobj) : bool :=
  let t := nullish (obj_get "type" args) (JStr "") in
  existsb (fun s => strict_eq (Some (JStr s)) (Some t)) slideTypes.

Definition body_classList_add (cls : string) (w : World) : World :=
  let d := document w in
  emit (EvBodyClassAdd cls)
    (set_document
       {| statusEl := statusEl d; iframes := iframes d;
          bodyClasses := if existsb (String.eqb cls) (bodyClasses d)
                         then bodyClasses d
                         else bodyClasses d ++ [cls];
          fullscreenElement := fullscreenElement d |} w).

(** [RISE:set-theme], [execute].  [riseMetadata['theme'] = themeName]
    changes the value read from the model before [setMetadata] stores it:
    whether the host hands out its own object or a copy, the value under
    ['rise'] after [setMetadata] is the changed one. *)
Definition riseSetTheme (args : jsobj) (w : World) : Completion :=
  let themeName := obj_get "theme" args in
  match tracker_current w, themeName with
  | Some (i, p), Some t =>
      if truthy themeName
      then
        match model p with
        | Some _ =>
            let r := getMetadata i "rise" w in
            match set_named (or_empty r.1) "theme" t with
            | Some riseMetadata =>
                Returned
                  (body_classList_add "rise-enabled"
                     (showDialog "Theme Updated"
                        (setMetadata i "rise" riseMetadata r.2)))
            | None => Threw r.2
            end
        | None => Returned (body_classList_add "rise-enabled" w)
        end
      else Returned (body_classList_add "rise-enabled" w)
  | _, _ => Returned (body_classList_add "rise-enabled" w)
  end.

(** [RISE:theme-picker]: the dialog is shown with a [ThemePickerDialog] as
    its body, which renders. *)
Definition openThemePicker (w : World) : World :=
  match tracker_current w with
  | Some _ =>
      (ThemePicker.render (showDialog "Choose a Slideshow Theme" w)).2
  | None => w
  end.

(** [(panel.content.model?.getMetadata('rise') ?? {})['autolaunch']]. *)
Definition autolaunch_field (p : NotebookPanel) : jsval :=
  get_named
    (nullish (match model p with
              | Some m => m !! "rise"
              | None => None
              end) (JObj []))
    "autolaunch".

(** The value of [autolaunch] in the [widgetAdded] handler before the
    settings are looked at: [... ?? false]. *)
Definition read_autolaunch (p : NotebookPanel) : json :=
  nullish (autolaunch_field p) (JBool false).

(** [autolaunch |= settings.get('autolaunch').composite], when [settings]
    is set. *)
Definition or_settings (engine : json -> Z) (autolaunch : json)
    (s : option jsval) : json :=
  match s with
  | Some composite => bit_or engine (Some autolaunch) composite
  | None => autolaunch
  end.

(** What the host and the engine answer while the handler of [widgetAdded]
    runs: how [panel.context.ready] is settled, the integer of a string or
    array operand of [|=], and the answers for the preview command. *)
Record AddedHost : Type := {
  contextReady : Settled;
  engine : json -> Z;
  launch : PreviewHost
}.

(** The handler of [notebookTracker.widgetAdded] for the panel of index
    [i]; [None] when there is no such panel.  Each step after an [await] is
    made when the awaited promise is fulfilled; when it is rejected, so is
    the handler, and the theme button is not reached. *)
Definition widgetAdded (h : AddedHost) (i : nat) (w : World)
  : option Completion :=
  match panels w !! i with
  | Some p =>
      let w1 := emit (EvToolbarInsert i "RISE-button") w in
      let launched :=
        if negb (String.eqb (appName w) "Rise")
        then
          match contextReady h with
          | Fulfilled =>
              let autolaunch :=
                or_settings (engine h) (read_autolaunch p) (settings w) in
              if truthy (Some autolaunch)
              then risePreview (launch h) [("fullscreen", JBool true)]
                     (emit (EvExecute "RISE:preview"
                              [("fullscreen", JBool true)]) w1)
              else Returned w1
          | Rejected => Threw w1
          end
        else Returned w1 in
      match launched with
      | Returned w2 =>
          Some (Returned (emit (EvToolbarInsert i "RISE-theme-button") w2))
      | Threw w2 => Some (Threw w2)
      end
  | None => None
  end.

End Rise.

Import ThemePicker Rise.

(** ** What a handler adds to the log, and the operations as one type *)

(** The calls made between [w] and [w']. *)
Definition new_calls (w w' : World) : list Event :=
  drop (length (calls w)) (calls w').

Definition is_save (e : Event) : bool :=
  match e with EvSave _ => true | _ => false end.

Definition is_metadata_write (e : Event) : bool :=
  match e with
  | EvSetMetadata _ _ _ => true
  | EvCellSetMetadata _ _ _ _ => true
  | EvCellDeleteMetadata _ _ _ => true
  | _ => false
  end.

(** The handlers of the plugin and of the picker, with what the host
    answers them, and the callbacks the preview command leaves behind. *)
Inductive Operation : Type :=
| OpOpenRise (saved : Settled)
| OpRisePreview (h : PreviewHost) (args : jsobj)
| OpRiseFullScreen (h : FullScreenHost) (args : jsobj)
| OpRiseSetSlideType (args : jsobj)
| OpRiseSetTheme (args : jsobj)
| OpOpenThemePicker
| OpUpdateMetadata (themeName : string)
| OpWidgetAdded (h : AddedHost) (panel : nat)
| OpPreviewReadyThen
| OpPreviewReadyCatch
| OpFullScreenDialogThen (h : FullScreenHost) (accept : bool) (id : string).

Definition run (op : Operation) (w : World) : option World :=
  match op with
  | OpOpenRise saved => Some (world_of (openRise saved w))
  | OpRisePreview h args => Some (world_of (risePreview h args w))
  | OpRiseFullScreen h args => Some (world_of (riseFullScreen h args w))
  | OpRiseSetSlideType args => Some (riseSetSlideType args w)
  | OpRiseSetTheme args => Some (world_of (riseSetTheme args w))
  | OpOpenThemePicker => Some (openThemePicker w)
  | OpUpdateMetadata t => Some (updateMetadata t w)
  | OpWidgetAdded h i =>
      match widgetAdded h i w with
      | Some c => Some (world_of c)
      | None => None
      end
  | OpPreviewReadyThen => Some (previewReady_then w)
  | OpPreviewReadyCatch => Some (previewReady_catch w)
  | OpFullScreenDialogThen h accept id =>
      Some (fullScreenDialog_then h accept id w)
  end.

(** A notebook is current and it has a model. *)
Definition has_model (w : World) : bool :=
  match tracker_current w with
  | Some (_, p) =>
      match model p with
      | Some _ => true
      | None => false
      end
  | None => false
  end.

(** The steps of the pipeline of the picker, as calls on the host. *)
Inductive Step : Type := Read | Mutate | Persist | Refresh.

Definition step_of (e : Event) : option Step :=
  match e with
  | EvGetMetadata _ key => if String.eqb key "rise" then Some Read else None
  | EvSetMetadata _ key _ =>
      if String.eqb key "rise" then Some Mutate else None
  | EvSave _ => Some Persist
  | EvIframeSrc _ => Some Refresh
  | _ => None
  end.

(** The slide show metadata of a cell as the claim wants it: absent, or an
    object with at least one key. *)
Definition absent_or_nonempty_object (v : jsval) : bool :=
  match v with
  | None => true
  | Some (JObj (_ :: _)) => true
  | Some _ => false
  end.


(** [undefined] and the values compared by value by [===]. *)
Definition primitive (v : jsval) : bool :=
  match v with
  | Some (JArr _) => false
  | Some (JObj _) => false
  | _ => true
  end.

(** The [slide_type] the [RISE:set-slide-type] command compares its
    argument with: that of the active cell of the notebook in the shell. *)
Definition active_slide_type (w : World) : option jsval :=
  match shell_notebook w with
  | Some (_, p) =>
      match active_cell_model p with
      | Some (_, cm) =>
          Some (get_named (nullish (cm !! "slideshow") (JObj [])) "slide_type")
      | None => None
      end
  | None => None
  end.

(** Worlds used as concrete inputs. *)
Definition empty_document : Document :=
  {| statusEl := None; iframes := []; bodyClasses := [];
     fullscreenElement := false |}.

Definition one_notebook (nb : gmap string json) (cell : gmap string json)
  : World :=
  {| panels := [ {| model := Some nb; cells := [cell];
                    activeCell := Some 0 |} ];
     currentWidget := Some 0;
     shellCurrent := Some (NotebookWidget 0);
     shellMain := [("0", NotebookWidget 0)];
     document := empty_document;
     appName := "JupyterLab";
     settings := None;
     calls := [] |}.

(** A host where every awaited promise is fulfilled, the preview becomes
    the current widget of the shell and is ready later. *)
Definition preview_opens : PreviewHost :=
  {| saveSettles := Fulfilled; openSettles := Fulfilled;
     shellAfterOpen := Some (PreviewWidget (Some false));
     mainAfterOpen := [("0", NotebookWidget 0);
                       ("preview", PreviewWidget (Some false))];
     readyResolved := false |}.

Definition context_ready : AddedHost :=
  {| contextReady := Fulfilled; engine := fun _ => 0%Z;
     launch := preview_opens |}.

Definition picker_open (w : World) : World :=
  set_document
    {| statusEl := Some {| innerText := "CURRENT THEME: BLACK"; color := "" |};
       iframes := [ {| src := "http://localhost:8888/rise/reveal/nb.ipynb";
                       loads := 1 |};
                    {| src := "http://localhost:8888/doc/help.html";
                       loads := 1 |} ];
       bodyClasses := [];
       fullscreenElement := false |} w.

(** A primitive that is truthy: a non-empty string, a number other than
    zero, [true]. *)
Definition truthy_primitive (v : json) : bool :=
  match v with
  | JArr _ => false
  | JObj _ => false
  | _ => truthy (Some v)
  end.


(** ** The properties C1, C3, C5, C7 and C8 as the specification words them,
       and the outcomes of [RISE:set-theme] *)

(** The four ways [RISE:set-theme] can go. *)
Inductive SetThemeOutcome (args : jsobj) (w : World) : Prop :=
| SetThemeSkipped :
    has_model w = false \/ truthy (obj_get "theme" args) = false ->
    riseSetTheme args w = Returned (body_classList_add "rise-enabled" w) ->
    SetThemeOutcome args w
| SetThemeWritten i p m t r w' :
    tracker_current w = Some (i, p) -> model p = Some m ->
    obj_get "theme" args = Some t -> truthy (Some t) = true ->
    set_named (or_empty (m !! "rise")) "theme" t = Some r ->
    riseSetTheme args w = Returned w' ->
    panels w' = <[i := panel_setMetadata "rise" r p]> (panels w) ->
    calls w' = calls w ++ [EvGetMetadata i "rise"; EvSetMetadata i "rise" r;
                           EvShowDialog "Theme Updated";
                           EvBodyClassAdd "rise-enabled"] ->
    SetThemeOutcome args w
| SetThemeThrew i p m t :
    tracker_current w = Some (i, p) -> model p = Some m ->
    obj_get "theme" args = Some t -> truthy (Some t) = true ->
    set_named (or_empty (m !! "rise")) "theme" t = None ->
    riseSetTheme args w = Threw (emit (EvGetMetadata i "rise") w) ->
    SetThemeOutcome args w.


(** The first part of C5 as the specification words it, for one operation:
    after it has called [setMetadata('rise', ...)] on a notebook, that
    notebook holds a JSON object under ['rise']. *)
Definition stores_json_object (op : Operation) : Prop :=
  forall (w w' : World) (i : nat) (v : json),
    run op w = Some w' ->
    In (EvSetMetadata i "rise" v) (new_calls w w') ->
    exists o, metadata_at w' i "rise" = Some (JObj o).

(** [w'] has the metadata of [w], and neither [setMetadata],
    [deleteMetadata] nor [save] was called in between. *)
Definition quiet (w w' : World) : Prop :=
  panels w' = panels w
  /\ Forall (fun e => is_save e = false /\ is_metadata_write e = false)
       (new_calls w w').

(** C8 as the specification words it: after the command, the active cell
    holds nothing or a non-empty object under ['slideshow']. *)
Definition slideshow_never_empty (args : jsobj) : Prop :=
  forall (w : World) (i c : nat) (p : NotebookPanel) (cm : gmap string json),
    shell_notebook w = Some (i, p) -> active_cell_model p = Some (c, cm) ->
    absent_or_nonempty_object
      (cell_metadata_at (riseSetSlideType args w) i c "slideshow") = true.


(** C3 as the specification words it, for one operation: it changes no
    metadata of a notebook under a key other than ['rise'], and no metadata
    of a cell. *)
Definition writes_only_rise (op : Operation) : Prop :=
  forall (w w' : World),
    run op w = Some w' ->
    (forall i k, k <> "rise" -> metadata_at w' i k = metadata_at w i k)
    /\ (forall i c k, cell_metadata_at w' i c k = cell_metadata_at w i c k).

(** ** The operations on concrete values *)

Example spread_string :
  spread (JStr "ab") = [("0", JStr "a"); ("1", JStr "b")].
Proof. reflexivity. Qed.

Example spread_array :
  spread (JArr [JNum 7; JNull]) = [("0", JNum 7); ("1", JNull)].
Proof. reflexivity. Qed.

Example includes_reveal :
  includes "reveal" "http://localhost/rise/reveal/nb.ipynb" = true
  /\ includes "reveal" "http://localhost/lab" = false.
Proof. split; reflexivity. Qed.

Example toUpperCase_sky : toUpperCase "sky" = "SKY".
Proof. reflexivity. Qed.

Example bit_or_booleans :
  bit_or (engine context_ready) (Some (JBool false)) (Some (JBool true))
  = JNum 1
  /\ bit_or (engine context_ready) (Some (JBool false)) None = JNum 0.
Proof. split; reflexivity. Qed.

Example slide_types_enabled :
  riseSetSlideType_isEnabled [("type", JStr "fragment")] = true
  /\ riseSetSlideType_isEnabled [] = false.
Proof. split; reflexivity. Qed.

(** ** Properties of the object operations *)

Section ObjectLemmas.

Implicit Types (k : string) (v : json) (o : jsobj).

Lemma obj_get_set_eq k v o : obj_get k (obj_set k v o) = Some v.
Proof.
  induction o as [|[k' v'] o IH]; simpl.
  - by rewrite String.eqb_refl.
  - destruct (String.eqb k' k) eqn:E; simpl.
    + by rewrite String.eqb_refl.
    + by rewrite E.
Qed.

Lemma obj_get_set_ne k k' v o :
  k <> k' -> obj_get k' (obj_set k v o) = obj_get k' o.
Proof.
  intros Hne. induction o as [|[k1 v1] o IH]; simpl.
  - by apply String.eqb_neq in Hne as ->.
  - destruct (String.eqb k1 k) eqn:E; simpl.
    + apply String.eqb_eq in E as ->.
      by apply String.eqb_neq in Hne as ->.
    + by rewrite IH.
Qed.

Lemma obj_set_idemp k v o : obj_set k v (obj_set k v o) = obj_set k v o.
Proof.
  induction o as [|[k' v'] o IH]; simpl.
  - by rewrite String.eqb_refl.
  - destruct (String.eqb k' k) eqn:E; simpl.
    + by rewrite String.eqb_refl.
    + by rewrite E, IH.
Qed.

Lemma obj_delete_idemp k o : obj_delete k (obj_delete k o) = obj_delete k o.
Proof.
  induction o as [|[k' v'] o IH]; simpl; [done|].
  destruct (String.eqb k' k) eqn:E; simpl; [done|].
  by rewrite E, IH.
Qed.

Lemma obj_get_delete_eq k o : obj_get k (obj_delete k o) = None.
Proof.
  induction o as [|[k' v'] o IH]; simpl; [done|].
  destruct (String.eqb k' k) eqn:E; simpl; [done|].
  by rewrite E.
Qed.

Lemma obj_set_cons k v o : exists q o', obj_set k v o = q :: o'.
Proof.
  destruct o as [|[k' v'] o]; simpl; [by eauto|].
  destruct (String.eqb k' k); eauto.
Qed.

Lemma obj_keys_length o : length (obj_keys o) = length o.
Proof. unfold obj_keys. apply length_map. Qed.

End ObjectLemmas.

Lemma strict_eq_primitive (a b : jsval) :
  primitive a = true -> (strict_eq a b = true <-> a = b).
Proof.
  destruct a as [[| x | x | x | |]|], b as [[| y | y | y | |]|];
    simpl; intros Hp; try discriminate Hp; split; intros H;
    try discriminate H; try done.
  - by apply Bool.eqb_prop in H as ->.
  - injection H as ->. by destruct y.
  - by apply Z.eqb_eq in H as ->.
  - injection H as ->. apply Z.eqb_refl.
  - by apply String.eqb_eq in H as ->.
  - injection H as ->. apply String.eqb_refl.
Qed.

(** ** Bookkeeping on worlds *)

Lemma tracker_current_Some (w : World) (i : nat) (p : NotebookPanel) :
  tracker_current w = Some (i, p)
  <-> currentWidget w = Some i /\ panels w !! i = Some p.
Proof.
  unfold tracker_current. split.
  - destruct (currentWidget w) as [j|]; [|done].
    destruct (panels w !! j) eqn:E; [|done].
    intros [= -> ->]. done.
  - intros [-> ->]. done.
Qed.

Lemma shell_notebook_Some (w : World) (i : nat) (p : NotebookPanel) :
  shell_notebook w = Some (i, p)
  <-> shellCurrent w = Some (NotebookWidget i) /\ panels w !! i = Some p.
Proof.
  unfold shell_notebook. split.
  - destruct (shellCurrent w) as [[j| |]|]; try done.
    destruct (panels w !! j) eqn:E; [|done].
    intros [= -> ->]. done.
  - intros [-> ->]. done.
Qed.

Lemma new_calls_app (w w' : World) (evs : list Event) :
  calls w' = calls w ++ evs -> new_calls w w' = evs.
Proof. unfold new_calls. intros ->. by rewrite drop_app_length. Qed.

Lemma foldl_emit_calls (evs : list Event) (w : World) :
  calls (foldl (fun w' e => emit e w') w evs) = calls w ++ evs.
Proof.
  revert w. induction evs as [|e evs IH]; intros w; simpl.
  - by rewrite app_nil_r.
  - rewrite IH. simpl. by rewrite <- app_assoc.
Qed.

Lemma foldl_emit_rest (evs : list Event) (w : World) :
  let w' := foldl (fun w' e => emit e w') w evs in
  panels w' = panels w /\ document w' = document w
  /\ currentWidget w' = currentWidget w /\ shellCurrent w' = shellCurrent w.
Proof.
  revert w. induction evs as [|e evs IH]; intros w; simpl; [done|].
  apply (IH (emit e w)).
Qed.

(** ** What each theme operation does to the metadata and to the log *)

Lemma refresh_spec (fs : list Iframe) (i : nat) :
  (refresh i fs).1
  = map (fun f => if includes "reveal" (src f) then reload f else f) fs
  /\ length (refresh i fs).2
     = length (filter (fun f => includes "reveal" (src f) = true) fs)
  /\ Forall (fun e => step_of e = Some Refresh) (refresh i fs).2.
Proof.
  revert i. induction fs as [|f fs IH]; intros i; simpl; [done|].
  destruct (IH (S i)) as (H1 & H2 & H3).
  rewrite filter_cons.
  destruct (includes "reveal" (src f)) eqn:E; case_decide; try done; simpl.
  - rewrite H1, H2. repeat split. by constructor.
  - rewrite H1, H2. done.
Qed.

Lemma updateMetadata_effect (t : string) (w : World) (i : nat)
    (p : NotebookPanel) (m : gmap string json) :
  tracker_current w = Some (i, p) -> model p = Some m ->
  let v := JObj (obj_set "theme" (JStr t) (spread (or_empty (m !! "rise")))) in
  panels (updateMetadata t w) = <[i := panel_setMetadata "rise" v p]> (panels w)
  /\ calls (updateMetadata t w)
     = calls w
       ++ [EvGetMetadata i "rise"; EvSetMetadata i "rise" v]
       ++ match statusEl (document w) with
          | Some _ => [EvStatus (toUpperCase t)]
          | None => []
          end
       ++ [EvSave i] ++ (refresh 0 (iframes (document w))).2 ++ [EvUpdate]
  /\ iframes (document (updateMetadata t w))
     = (refresh 0 (iframes (document w))).1.
Proof.
  intros Hcur Hm v. unfold updateMetadata. rewrite Hcur, Hm.
  apply tracker_current_Some in Hcur as [_ Hp].
  unfold getMetadata, _refreshRisePreview, set_status, setMetadata, save.
  cbn [fst snd panels emit set_panels document calls].
  rewrite Hp, Hm. fold v.
  destruct (statusEl (document w)) as [se|] eqn:Hs;
    cbn [panels emit set_panels set_document document calls iframes set_iframes];
    rewrite foldl_emit_calls;
    pose proof (foldl_emit_rest
      (refresh 0 (iframes (document w))).2) as Hr;
    cbn zeta in Hr.
  all: match goal with
       | |- context [foldl _ ?w0 _] =>
           destruct (Hr w0) as (Hr1 & Hr2 & _)
       end; rewrite Hr1, Hr2; cbn; rewrite <- !app_assoc; done.
Qed.

Lemma updateMetadata_no_model (t : string) (w : World) :
  has_model w = false -> updateMetadata t w = w.
Proof.
  unfold has_model, updateMetadata.
  destruct (tracker_current w) as [[i p]|]; [|done].
  by destruct (model p).
Qed.

Lemma has_model_true (w : World) :
  has_model w = true
  <-> exists i p m, tracker_current w = Some (i, p) /\ model p = Some m.
Proof.
  unfold has_model. split.
  - destruct (tracker_current w) as [[i p]|]; [|done].
    destruct (model p) as [m|] eqn:E; [|done]. eauto.
  - intros (i & p & m & -> & ->). done.
Qed.

(** The metadata of a notebook after [setMetadata] on panel [i]. *)
Lemma metadata_at_setMetadata (w w' : World) (i : nat) (p : NotebookPanel)
    (m : gmap string json) (key : string) (v : json) :
  panels w !! i = Some p -> model p = Some m ->
  panels w' = <[i := panel_setMetadata key v p]> (panels w) ->
  metadata_at w' i key = Some v
  /\ (forall j k, (j, k) <> (i, key) -> metadata_at w' j k = metadata_at w j k)
  /\ (forall j c k, cell_metadata_at w' j c k = cell_metadata_at w j c k).
Proof.
  intros Hp Hm Hw'. unfold metadata_at, cell_metadata_at. rewrite Hw'.
  assert (i < length (panels w)) as Hlt by (by eapply lookup_lt_Some).
  repeat split.
  - rewrite list_lookup_insert_eq by done. simpl. rewrite Hm.
    apply lookup_insert_eq.
  - intros j k Hne. destruct (decide (j = i)) as [->|Hj].
    + rewrite list_lookup_insert_eq by done. rewrite Hp. simpl. rewrite Hm.
      apply lookup_insert_ne. congruence.
    + by rewrite list_lookup_insert_ne.
  - intros j c k. destruct (decide (j = i)) as [->|Hj].
    + rewrite list_lookup_insert_eq by done. by rewrite Hp.
    + by rewrite list_lookup_insert_ne.
Qed.

Lemma metadata_at_same_panels (w w' : World) :
  panels w' = panels w ->
  (forall j k, metadata_at w' j k = metadata_at w j k)
  /\ (forall j c k, cell_metadata_at w' j c k = cell_metadata_at w j c k).
Proof. intros H. unfold metadata_at, cell_metadata_at. by rewrite H. Qed.

Lemma riseSetTheme_outcome (args : jsobj) (w : World) :
  SetThemeOutcome args w.
Proof.
  destruct (tracker_current w) as [[i p]|] eqn:Hcur.
  2:{ apply SetThemeSkipped.
      - left. unfold has_model. by rewrite Hcur.
      - unfold riseSetTheme. by rewrite Hcur. }
  destruct (obj_get "theme" args) as [t|] eqn:Ht.
  2:{ apply SetThemeSkipped.
      - right. by rewrite Ht.
      - unfold riseSetTheme. by rewrite Hcur, Ht. }
  destruct (truthy (Some t)) eqn:Htr.
  2:{ apply SetThemeSkipped.
      - right. by rewrite Ht.
      - unfold riseSetTheme. by rewrite Hcur, Ht, Htr. }
  destruct (model p) as [m|] eqn:Hm.
  2:{ apply SetThemeSkipped.
      - left. unfold has_model. by rewrite Hcur, Hm.
      - unfold riseSetTheme. by rewrite Hcur, Ht, Htr, Hm. }
  pose proof Hcur as Hcur'. apply tracker_current_Some in Hcur' as [_ Hp].
  assert ((getMetadata i "rise" w).1 = m !! "rise") as Hget.
  { unfold getMetadata. simpl. by rewrite Hp, Hm. }
  destruct (set_named (or_empty (m !! "rise")) "theme" t) as [r|] eqn:Hset.
  - eapply (SetThemeWritten args w i p m t r); try done.
    + unfold riseSetTheme. rewrite Hcur, Ht, Htr, Hm. cbn zeta.
      rewrite Hget, Hset. done.
    + unfold setMetadata. simpl. by rewrite Hp.
    + simpl. by rewrite <- !app_assoc.
  - eapply (SetThemeThrew args w i p m t); try done.
    unfold riseSetTheme. rewrite Hcur, Ht, Htr, Hm. cbn zeta.
    rewrite Hget, Hset. done.
Qed.


(** The calls of [updateMetadata] when a notebook with a model is current:
    one [setMetadata], then one [save], and no other write in between or
    after. *)
Lemma updateMetadata_calls (t : string) (w : World) :
  has_model w = true ->
  exists i0 p m evs1 evs2 o,
    tracker_current w = Some (i0, p) /\ model p = Some m
    /\ panels (updateMetadata t w)
       = <[i0 := panel_setMetadata "rise" (JObj o) p]> (panels w)
    /\ new_calls w (updateMetadata t w)
       = [EvGetMetadata i0 "rise"; EvSetMetadata i0 "rise" (JObj o)]
         ++ evs1 ++ [EvSave i0] ++ evs2
    /\ Forall (fun e => is_metadata_write e = false) (evs1 ++ evs2).
Proof.
  intros (i0 & p & m & Hcur & Hm)%has_model_true.
  destruct (updateMetadata_effect t w i0 p m Hcur Hm) as (Hp & Hc & _).
  eexists i0, p, m, _, _, _. split; [done|]. split; [done|].
  split; [exact Hp|]. split; [by apply new_calls_app|].
  apply Forall_app. split.
  - by destruct (statusEl (document w)); repeat constructor.
  - apply Forall_app. split; [|by repeat constructor].
    destruct (refresh_spec (iframes (document w)) 0) as (_ & _ & Hr).
    eapply Forall_impl; [exact Hr|].
    intros [] He; simpl in *; try done.
    by destruct (String.eqb key "rise").
Qed.

(** ** C1: persistence of the theme operations *)




Lemma riseSetTheme_written (args : jsobj) (w : World) (i : nat)
    (p : NotebookPanel) (m : gmap string json) (t r : json) :
  tracker_current w = Some (i, p) -> model p = Some m ->
  obj_get "theme" args = Some t -> truthy (Some t) = true ->
  set_named (or_empty (m !! "rise")) "theme" t = Some r ->
  exists w',
    riseSetTheme args w = Returned w'
    /\ panels w' = <[i := panel_setMetadata "rise" r p]> (panels w)
    /\ new_calls w w'
       = [EvGetMetadata i "rise"; EvSetMetadata i "rise" r;
          EvShowDialog "Theme Updated"; EvBodyClassAdd "rise-enabled"]
    /\ metadata_at w' i "rise" = Some r.
Proof.
  intros Hcur Hm Ht Htr Hset.
  destruct (riseSetTheme_outcome args w)
    as [[Hno|Hno] _|i0 p0 m0 t0 r0 w' Hcur0 Hm0 Ht0 _ Hset0 Hr Hp Hc
       |i0 p0 m0 t0 Hcur0 Hm0 Ht0 _ Hset0 _].
  - unfold has_model in Hno. by rewrite Hcur, Hm in Hno.
  - rewrite Ht in Hno. congruence.
  - simplify_eq. exists w'. split; [done|]. split; [done|].
    split; [by apply new_calls_app|].
    apply tracker_current_Some in Hcur as [_ Hl].
    by destruct (metadata_at_setMetadata w w' i p m "rise" r Hl Hm Hp).
  - simplify_eq.
Qed.

(** ** C2: setting the theme keeps the other keys of the record *)

(** C2: when the current notebook has a record [R] under ['rise'], the
    picker's [updateMetadata] with a theme [t], and the [RISE:set-theme]
    command with a theme name [t] (non-empty: the command does nothing
    without), call [setMetadata('rise', R')] with a record [R'] whose
    ['theme'] is [t] and whose other keys have the values they have in [R];
    [R'] is what the model then holds under ['rise']. *)
Theorem set_theme_keeps_other_keys (w : World) (i : nat) (p : NotebookPanel)
    (m : gmap string json) (R : jsobj) (t : string) (args : jsobj) :
  tracker_current w = Some (i, p) -> model p = Some m ->
  m !! "rise" = Some (JObj R) ->
  obj_get "theme" args = Some (JStr t) ->
  exists R',
    obj_get "theme" R' = Some (JStr t)
    /\ (forall k, k <> "theme" -> obj_get k R' = obj_get k R)
    /\ In (EvSetMetadata i "rise" (JObj R')) (new_calls w (updateMetadata t w))
    /\ metadata_at (updateMetadata t w) i "rise" = Some (JObj R')
    /\ (t <> "" ->
        exists w', riseSetTheme args w = Returned w'
          /\ In (EvSetMetadata i "rise" (JObj R')) (new_calls w w')
          /\ metadata_at w' i "rise" = Some (JObj R')).
Proof.
  intros Hcur Hm HR Ht. exists (obj_set "theme" (JStr t) R).
  split; [apply obj_get_set_eq|].
  split; [intros k Hk; by apply obj_get_set_ne|].
  destruct (updateMetadata_effect t w i p m Hcur Hm) as (Hp & Hc & _).
  rewrite HR in Hp, Hc. simpl in Hp, Hc.
  pose proof Hcur as [_ Hl]%tracker_current_Some.
  split; [|split].
  - rewrite (new_calls_app _ _ _ Hc). simpl. tauto.
  - by destruct (metadata_at_setMetadata w _ i p m "rise" _ Hl Hm Hp).
  - intros Hne.
    destruct (riseSetTheme_written args w i p m (JStr t)
                (JObj (obj_set "theme" (JStr t) R)) Hcur Hm Ht)
      as (w' & Hr & _ & Hn & Hmeta).
    + simpl. by apply String.eqb_neq in Hne as ->.
    + by rewrite HR.
    + exists w'. split; [done|]. split; [|done]. rewrite Hn. simpl. tauto.
Qed.

(** [set_theme_keeps_other_keys] on a record with ['autolaunch'] and a
    former theme. *)
Lemma set_theme_keeps_other_keys_witness :
  let R := [("autolaunch", JBool true); ("theme", JStr "black")] in
  let w := one_notebook {["rise" := JObj R]} ∅ in
  exists R',
    obj_get "theme" R' = Some (JStr "sky")
    /\ obj_get "autolaunch" R' = Some (JBool true)
    /\ metadata_at (updateMetadata "sky" w) 0 "rise" = Some (JObj R')
    /\ exists w',
         riseSetTheme [("theme", JStr "sky")] w = Returned w'
         /\ metadata_at w' 0 "rise" = Some (JObj R').
Proof.
  intros R w.
  destruct (set_theme_keeps_other_keys w 0
              {| model := Some {["rise" := JObj R]};
                 cells := [∅]; activeCell := Some 0 |}
              {["rise" := JObj R]} R "sky" [("theme", JStr "sky")])
    as (R' & Hth & Hother & _ & Hupd & Hcmd);
    [vm_compute; reflexivity ..|].
  exists R'. split; [exact Hth|].
  split; [rewrite Hother; [reflexivity|discriminate]|].
  split; [exact Hupd|].
  destruct Hcmd as (w' & Hr & _ & Hmeta); [discriminate|].
  exists w'. split; [exact Hr|exact Hmeta].
Defined.

(** ** C4: the record is created on the first write *)

(** C4: when the current notebook holds nothing under ['rise'], the picker's
    [updateMetadata] with a theme [t], and the [RISE:set-theme] command with
    a theme name [t] (non-empty: the command does nothing without), leave
    exactly [{ theme: t }] under ['rise']. *)
Theorem set_theme_creates_record (w : World) (i : nat) (p : NotebookPanel)
    (m : gmap string json) (t : string) (args : jsobj) :
  tracker_current w = Some (i, p) -> model p = Some m ->
  m !! "rise" = None ->
  obj_get "theme" args = Some (JStr t) ->
  metadata_at w i "rise" = None
  /\ metadata_at (updateMetadata t w) i "rise"
     = Some (JObj [("theme", JStr t)])
  /\ (t <> "" ->
      exists w', riseSetTheme args w = Returned w'
        /\ metadata_at w' i "rise" = Some (JObj [("theme", JStr t)])).
Proof.
  intros Hcur Hm Hnone Ht.
  pose proof Hcur as [_ Hl]%tracker_current_Some.
  split; [unfold metadata_at; by rewrite Hl, Hm|].
  destruct (updateMetadata_effect t w i p m Hcur Hm) as (Hp & _ & _).
  rewrite Hnone in Hp. simpl in Hp.
  split.
  - by destruct (metadata_at_setMetadata w _ i p m "rise" _ Hl Hm Hp).
  - intros Hne.
    destruct (riseSetTheme_written args w i p m (JStr t)
                (JObj [("theme", JStr t)]) Hcur Hm Ht)
      as (w' & Hr & _ & _ & Hmeta).
    + simpl. by apply String.eqb_neq in Hne as ->.
    + by rewrite Hnone.
    + by exists w'.
Qed.

(** [set_theme_creates_record] on a notebook without metadata. *)
Lemma set_theme_creates_record_witness :
  metadata_at (updateMetadata "moon" (one_notebook ∅ ∅)) 0 "rise"
  = Some (JObj [("theme", JStr "moon")])
  /\ exists w',
       riseSetTheme [("theme", JStr "moon")] (one_notebook ∅ ∅) = Returned w'
       /\ metadata_at w' 0 "rise" = Some (JObj [("theme", JStr "moon")]).
Proof.
  destruct (set_theme_creates_record (one_notebook ∅ ∅) 0
              {| model := Some ∅; cells := [∅]; activeCell := Some 0 |}
              ∅ "moon" [("theme", JStr "moon")])
    as (_ & Hupd & Hcmd); [vm_compute; reflexivity ..|].
  split; [exact Hupd|]. apply Hcmd. discriminate.
Defined.

(** ** C5: what is stored under ['rise'] *)

Lemma or_empty_array (v : jsval) (l : list json) :
  or_empty v = JArr l -> v = Some (JArr l).
Proof.
  destruct v as [[| b | n | s | l' | o]|]; simpl; try discriminate.
  - by destruct b.
  - by destruct (n =? 0)%Z.
  - by destruct (String.eqb s "").
  - by intros [= ->].
Qed.

(** C5, as stated, fails for the [RISE:set-theme] command on a notebook whose
    ['rise'] metadata is an array: [|| {}] keeps the array, the assignment
    of ['theme'] adds no element to it, and [setMetadata] is called with the
    array. *)
Lemma riseSetTheme_stores_array :
  let w := one_notebook {["rise" := JArr [JNum 1]]} ∅ in
  let w' := world_of (riseSetTheme [("theme", JStr "sky")] w) in
  In (EvSetMetadata 0 "rise" (JArr [JNum 1])) (new_calls w w')
  /\ metadata_at w' 0 "rise" = Some (JArr [JNum 1])
  /\ ~ stores_json_object (OpRiseSetTheme [("theme", JStr "sky")]).
Proof.
  cbn zeta.
  assert (In (EvSetMetadata 0 "rise" (JArr [JNum 1]))
            (new_calls (one_notebook {["rise" := JArr [JNum 1]]} ∅)
               (world_of (riseSetTheme [("theme", JStr "sky")]
                  (one_notebook {["rise" := JArr [JNum 1]]} ∅)))))
    as Hin by (vm_compute; tauto).
  split; [exact Hin|]. split; [by vm_compute|].
  intros H. destruct (H _ _ 0 _ eq_refl Hin) as [o Ho].
  vm_compute in Ho. discriminate Ho.
Qed.

(** C5, amended: a [setMetadata('rise', v)] of the picker's [updateMetadata]
    always has a JSON object for [v], which the notebook then holds; so has
    one of the [RISE:set-theme] command unless the notebook held an array
    under ['rise'], which is then stored back as it was.  Nothing else is
    required of the record: whatever non-empty string [s] the command is
    given as theme, on a notebook that holds nothing or an object under
    ['rise'] it returns and leaves an object whose ['theme'] is [s]. *)
Theorem rise_metadata_is_object (t : string) (args : jsobj) (w : World)
    (i : nat) (v : json) :
  (In (EvSetMetadata i "rise" v) (new_calls w (updateMetadata t w)) ->
   exists o, v = JObj o
     /\ metadata_at (updateMetadata t w) i "rise" = Some (JObj o))
  /\ (In (EvSetMetadata i "rise" v)
        (new_calls w (world_of (riseSetTheme args w))) ->
      (exists l, metadata_at w i "rise" = Some (JArr l) /\ v = JArr l)
      \/ (exists o, v = JObj o
            /\ metadata_at (world_of (riseSetTheme args w)) i "rise"
               = Some (JObj o)))
  /\ (forall (s : string) (p : NotebookPanel) (m : gmap string json),
        s <> "" -> obj_get "theme" args = Some (JStr s) ->
        tracker_current w = Some (i, p) -> model p = Some m ->
        is_object (nullish (m !! "rise") (JObj [])) = true ->
        exists w' o,
          riseSetTheme args w = Returned w'
          /\ metadata_at w' i "rise" = Some (JObj o)
          /\ obj_get "theme" o = Some (JStr s)).
Proof.
  split; [|split].
  - intros Hin. destruct (has_model w) eqn:Hhm.
    + destruct (updateMetadata_calls t w Hhm)
        as (i0 & p & m & evs1 & evs2 & v0 & Hcur & Hm & Hp & Hn & Hnw).
      apply tracker_current_Some in Hcur as [_ Hl].
      destruct (metadata_at_setMetadata w _ i0 p m "rise" _ Hl Hm Hp)
        as (Hmeta & _ & _).
      rewrite Hn in Hin. simpl in Hin.
      destruct Hin as [Hin|[Hin|Hin]]; [done| |].
      * injection Hin as -> <-. eauto.
      * exfalso. apply Forall_app in Hnw as [Hn1 Hn2].
        rewrite Forall_forall in Hn1. rewrite Forall_forall in Hn2.
        rewrite !in_app_iff in Hin. simpl in Hin.
        destruct Hin as [Hin|[Hin|Hin]]; [|done|].
        -- apply list_elem_of_In, Hn1 in Hin. done.
        -- apply list_elem_of_In, Hn2 in Hin. done.
    + rewrite updateMetadata_no_model in Hin by done.
      unfold new_calls in Hin. rewrite drop_all in Hin. done.
  - intros Hin.
    destruct (riseSetTheme_outcome args w)
      as [_ Hr|i0 p m t0 r w' Hcur Hm _ _ Hset Hr Hp Hc
         |i0 p m t0 _ _ _ _ _ Hr];
      rewrite Hr in Hin |- *; simpl in Hin |- *.
    + rewrite (new_calls_app w (body_classList_add "rise-enabled" w)
                 [EvBodyClassAdd "rise-enabled"] eq_refl) in Hin.
      simpl in Hin. by destruct Hin.
    + rewrite (new_calls_app _ _ _ Hc) in Hin. simpl in Hin.
      destruct Hin as [Hin|[Hin|[Hin|[Hin|[]]]]]; try done.
      injection Hin as -> <-.
      apply tracker_current_Some in Hcur as [_ Hl].
      destruct (metadata_at_setMetadata w w' i p m "rise" r Hl Hm Hp)
        as (Hmeta & _ & _).
      destruct (or_empty (m !! "rise")) as [| | | | l | o] eqn:Hor;
        simpl in Hset; try discriminate Hset; injection Hset as <-.
      * left. exists l. split; [|done].
        apply or_empty_array in Hor. unfold metadata_at. by rewrite Hl, Hm.
      * right. eauto.
    + rewrite (new_calls_app w (emit (EvGetMetadata i0 "rise") w)
                 [EvGetMetadata i0 "rise"] eq_refl) in Hin.
      simpl in Hin. by destruct Hin.
  - intros s p m Hs Ht Hcur Hm Hobj.
    assert (exists o, or_empty (m !! "rise") = JObj o) as [o Ho].
    { destruct (m !! "rise") as [[| | | | |o]|]; simpl in *; try done; eauto. }
    destruct (riseSetTheme_written args w i p m (JStr s)
                (JObj (obj_set "theme" (JStr s) o)) Hcur Hm Ht)
      as (w' & Hr & _ & _ & Hmeta).
    + simpl. by apply String.eqb_neq in Hs as ->.
    + by rewrite Ho.
    + exists w', (obj_set "theme" (JStr s) o).
      split; [done|]. split; [done|]. apply obj_get_set_eq.
Qed.

(** [rise_metadata_is_object] with a theme that the picker does not list, on
    a notebook without ['rise'] metadata. *)
Lemma rise_metadata_is_object_witness :
  let w := one_notebook ∅ ∅ in
  let args := [("theme", JStr "my-own-theme")] in
  ~ In "my-own-theme" themes
  /\ (exists o, metadata_at (updateMetadata "sky" w) 0 "rise" = Some (JObj o))
  /\ (exists o, metadata_at (world_of (riseSetTheme args w)) 0 "rise"
                = Some (JObj o))
  /\ exists w' o,
       riseSetTheme args w = Returned w'
       /\ metadata_at w' 0 "rise" = Some (JObj o)
       /\ obj_get "theme" o = Some (JStr "my-own-theme").
Proof.
  intros w args.
  split; [vm_compute; intuition discriminate|].
  destruct (rise_metadata_is_object "sky" args w 0
              (JObj [("theme", JStr "sky")])) as (H1 & _ & _).
  destruct (rise_metadata_is_object "sky" args w 0
              (JObj [("theme", JStr "my-own-theme")])) as (_ & H2 & H3).
  split; [|split].
  - destruct H1 as (o & _ & Ho); [vm_compute; tauto|]. by exists o.
  - destruct H2 as [(l & Hl & _)|(o & _ & Ho)]; [vm_compute; tauto| |].
    + vm_compute in Hl. discriminate Hl.
    + by exists o.
  - apply (H3 "my-own-theme"
             {| model := Some ∅; cells := [∅]; activeCell := Some 0 |} ∅);
      [discriminate|vm_compute; reflexivity ..].
Defined.

(** ** C10: nothing is written without a notebook, a model or a theme *)

Lemma openThemePicker_effect (w : World) :
  panels (openThemePicker w) = panels w
  /\ exists evs,
       new_calls w (openThemePicker w) = evs
       /\ Forall (fun e => is_save e = false /\ is_metadata_write e = false)
            evs.
Proof.
  unfold openThemePicker, render.
  destruct (tracker_current w) as [[i p]|] eqn:Hcur.
  - assert (tracker_current (showDialog "Choose a Slideshow Theme" w)
            = Some (i, p)) as -> by exact Hcur.
    destruct (model p); simpl; (split; [done|]); eexists; split; try done.
    + rewrite (new_calls_app w _
                 [EvShowDialog "Choose a Slideshow Theme";
                  EvGetMetadata i "rise"]).
      * by repeat constructor.
      * simpl. by rewrite <- app_assoc.
    + rewrite (new_calls_app w _ [EvShowDialog "Choose a Slideshow Theme"]).
      * by repeat constructor.
      * done.
  - split; [done|]. eexists; split; [done|].
    unfold new_calls. rewrite drop_all. constructor.
Qed.

(** C10: when no notebook is current or the current one has no model, the
    [RISE:set-theme] command, the [RISE:theme-picker] command and the
    picker's [updateMetadata] leave the metadata of every notebook and of
    every cell as it is, and call neither [setMetadata] nor [save]; so does
    the [RISE:set-theme] command when its ['theme'] argument is missing,
    empty or otherwise falsy. *)
Theorem theme_operations_skip (t : string) (args : jsobj) (w : World) :
  tracker_current w = None
  \/ (exists i p, tracker_current w = Some (i, p) /\ model p = None)
  \/ truthy (obj_get "theme" args) = false ->
  (exists w', riseSetTheme args w = Returned w' /\ quiet w w')
  /\ quiet w (openThemePicker w)
  /\ (has_model w = false -> updateMetadata t w = w).
Proof.
  intros Hskip. unfold quiet.
  assert (has_model w = false \/ truthy (obj_get "theme" args) = false)
    as Hno.
  { destruct Hskip as [H|[(i & p & H & Hm)|H]]; [left|left|by right];
      unfold has_model; rewrite H; [done|by rewrite Hm]. }
  split; [|split].
  - destruct (riseSetTheme_outcome args w)
      as [_ Hr|i p m t0 r w' Hcur Hm Ht Htr _ _ _ _
         |i p m t0 Hcur Hm Ht Htr _ _].
    + eexists. split; [exact Hr|]. split; [done|].
      rewrite (new_calls_app w _ [EvBodyClassAdd "rise-enabled"]); [|done].
      by repeat constructor.
    + exfalso. destruct Hno as [Hno|Hno].
      * unfold has_model in Hno. by rewrite Hcur, Hm in Hno.
      * rewrite Ht in Hno. congruence.
    + exfalso. destruct Hno as [Hno|Hno].
      * unfold has_model in Hno. by rewrite Hcur, Hm in Hno.
      * rewrite Ht in Hno. congruence.
  - destruct (openThemePicker_effect w) as (Hp & evs & <- & Hev). by split.
  - apply updateMetadata_no_model.
Qed.

(** [theme_operations_skip] when the current notebook has no model, and
    when the command gets an empty theme. *)
Lemma theme_operations_skip_witness :
  let no_model :=
    {| panels := [ {| model := None; cells := []; activeCell := None |} ];
       currentWidget := Some 0;
       shellCurrent := Some (NotebookWidget 0);
       shellMain := [];
       document := empty_document;
       appName := "JupyterLab";
       settings := None;
       calls := [] |} in
  let w := one_notebook {["rise" := JObj [("theme", JStr "sky")]]} ∅ in
  updateMetadata "moon" no_model = no_model
  /\ panels (openThemePicker no_model) = panels no_model
  /\ (exists w', riseSetTheme [("theme", JStr "moon")] no_model = Returned w'
                 /\ panels w' = panels no_model)
  /\ (exists w', riseSetTheme [("theme", JStr "")] w = Returned w'
                 /\ panels w' = panels w).
Proof.
  intros no_model w.
  destruct (theme_operations_skip "moon" [("theme", JStr "moon")] no_model)
    as ((w1 & Hr1 & Hq1 & _) & (Hq2 & _) & Hupd).
  { right. left. by eexists 0, _. }
  destruct (theme_operations_skip "moon" [("theme", JStr "")] w)
    as ((w2 & Hr2 & Hq3 & _) & _).
  { right. right. reflexivity. }
  split; [apply Hupd; reflexivity|].
  split; [exact Hq2|].
  split; [by exists w1|by exists w2].
Defined.

(** ** C6: the order of the pipeline of the picker *)




(** ** C7: automatic launch of the preview *)

Lemma risePreview_effect (h : PreviewHost) (args : jsobj) (w : World) :
  panels (world_of (risePreview h args w)) = panels w
  /\ exists evs,
       calls (world_of (risePreview h args w)) = calls w ++ evs
       /\ Forall (fun e => is_metadata_write e = false
                           /\ forall a, e <> EvExecute "RISE:preview" a) evs.
Proof.
  unfold risePreview, getCurrent, previewReady_then.
  destruct (tracker_current w) as [[i p]|]; simpl.
  2:{ split; [done|]. exists []. by rewrite app_nil_r. }
  destruct (strict_eq (obj_get "activate" args) (Some (JBool false)));
    destruct (saveSettles h); destruct (openSettles h);
    destruct (strict_eq (obj_get "fullscreen" args) (Some (JBool true)));
    destruct (readyResolved h);
    simpl; (split; [done|]); rewrite <- ?app_assoc; simpl;
    eexists; (split; [reflexivity|]); by repeat constructor.
Qed.




(** ** [RISE:set-slide-type] *)

Lemma riseSetSlideType_spec (args : jsobj) (w : World) (i c : nat)
    (p : NotebookPanel) (cm : gmap string json) :
  shell_notebook w = Some (i, p) -> active_cell_model p = Some (c, cm) ->
  let value := obj_get "type" args in
  let cur := nullish (cm !! "slideshow") (JObj []) in
  let nv := new_slideshow value cur in
  let w1 := emit (EvCellGetMetadata i c "slideshow") w in
  riseSetSlideType args w
  = if negb (strict_eq value (get_named cur "slide_type"))
    then if 0 <? length (obj_keys nv)
         then cell_setMetadata i c "slideshow" (JObj nv) w1
         else cell_deleteMetadata i c "slideshow" w1
    else w1.
Proof.
  intros Hs Ha. cbn zeta. unfold riseSetSlideType. rewrite Hs, Ha.
  apply shell_notebook_Some in Hs as [_ Hl].
  unfold active_cell_model in Ha.
  destruct (activeCell p) as [c'|]; [|done].
  destruct (cells p !! c') as [cm'|] eqn:Hc; [|done].
  injection Ha as -> ->.
  unfold cell_getMetadata. cbn [fst snd]. by rewrite Hl, Hc.
Qed.

Lemma active_cell_model_Some (p : NotebookPanel) (c : nat)
    (cm : gmap string json) :
  active_cell_model p = Some (c, cm)
  <-> activeCell p = Some c /\ cells p !! c = Some cm.
Proof.
  unfold active_cell_model. split.
  - destruct (activeCell p) as [c'|]; [|done].
    destruct (cells p !! c') eqn:E; [|done]. by intros [= -> ->].
  - by intros [-> ->].
Qed.

(** The state after a cell of a panel has been altered. *)
Lemma alter_cell_spec (w : World) (i c : nat) (p : NotebookPanel)
    (cm : gmap string json) (f : gmap string json -> gmap string json) :
  panels w !! i = Some p -> cells p !! c = Some cm ->
  panels (alter_cell i c f w) !! i = Some (panel_alter_cell c f p)
  /\ cells (panel_alter_cell c f p) !! c = Some (f cm)
  /\ activeCell (panel_alter_cell c f p) = activeCell p
  /\ model (panel_alter_cell c f p) = model p
  /\ cell_metadata_at (alter_cell i c f w) i c "slideshow"
     = f cm !! "slideshow"
  /\ (forall j k, metadata_at (alter_cell i c f w) j k = metadata_at w j k).
Proof.
  intros Hl Hc.
  assert (i < length (panels w)) as Hi by (by eapply lookup_lt_Some).
  assert (c < length (cells p)) as Hlt by (by eapply lookup_lt_Some).
  assert (panels (alter_cell i c f w) !! i = Some (panel_alter_cell c f p))
    as Hnew.
  { unfold alter_cell. simpl. rewrite Hl. by apply list_lookup_insert_eq. }
  assert (cells (panel_alter_cell c f p) !! c = Some (f cm)) as Hcell.
  { unfold panel_alter_cell. simpl. rewrite Hc.
    by apply list_lookup_insert_eq. }
  repeat split; try done.
  - unfold cell_metadata_at. by rewrite Hnew, Hcell.
  - intros j k. unfold metadata_at, alter_cell. simpl. rewrite Hl.
    destruct (decide (j = i)) as [->|Hj].
    + rewrite list_lookup_insert_eq by done. by rewrite Hl.
    + by rewrite list_lookup_insert_ne.
Qed.

Lemma alter_cell_twice (w : World) (i c : nat) (p : NotebookPanel)
    (cm : gmap string json) (f g : gmap string json -> gmap string json) :
  panels w !! i = Some p -> cells p !! c = Some cm ->
  g (f cm) = f cm ->
  panels (alter_cell i c g (alter_cell i c f w)) = panels (alter_cell i c f w).
Proof.
  intros Hl Hc Hg.
  destruct (alter_cell_spec w i c p cm f Hl Hc) as (Hl' & Hc' & _).
  unfold alter_cell at 1. cbn [panels set_panels]. rewrite Hl'.
  unfold panel_alter_cell at 1. rewrite Hc', Hg.
  rewrite (list_insert_id (cells _) c (f cm)) by done.
  apply list_insert_id. rewrite Hl'. by destruct (panel_alter_cell c f p).
Qed.

Lemma new_slideshow_idemp (value : jsval) (cur : json) :
  new_slideshow value (JObj (new_slideshow value cur))
  = new_slideshow value cur.
Proof.
  unfold new_slideshow. destruct value as [v|]; cbn [spread].
  - destruct (truthy (Some v)) eqn:E; rewrite ?E;
      [apply obj_set_idemp|apply obj_delete_idemp].
  - apply obj_delete_idemp.
Qed.

Lemma new_slideshow_truthy (value : jsval) (cur : json) :
  truthy value = true -> exists q o, new_slideshow value cur = q :: o.
Proof.
  unfold new_slideshow. destruct value as [v|]; [|done].
  intros ->. apply obj_set_cons.
Qed.

(** The metadata of the cell after the command, in its three cases. *)
Lemma riseSetSlideType_cases (args : jsobj) (w : World) (i c : nat)
    (p : NotebookPanel) (cm : gmap string json) :
  shell_notebook w = Some (i, p) -> active_cell_model p = Some (c, cm) ->
  let value := obj_get "type" args in
  let cur := nullish (cm !! "slideshow") (JObj []) in
  let nv := new_slideshow value cur in
  let w' := riseSetSlideType args w in
  cell_metadata_at w i c "slideshow" = cm !! "slideshow"
  /\ ((strict_eq value (get_named cur "slide_type") = true
       /\ panels w' = panels w
       /\ new_calls w w' = [EvCellGetMetadata i c "slideshow"])
      \/ (strict_eq value (get_named cur "slide_type") = false
          /\ (exists q o, nv = q :: o)
          /\ cell_metadata_at w' i c "slideshow" = Some (JObj nv)
          /\ new_calls w w' = [EvCellGetMetadata i c "slideshow";
                               EvCellSetMetadata i c "slideshow" (JObj nv)])
      \/ (strict_eq value (get_named cur "slide_type") = false
          /\ nv = []
          /\ cell_metadata_at w' i c "slideshow" = None
          /\ new_calls w w' = [EvCellGetMetadata i c "slideshow";
                               EvCellDeleteMetadata i c "slideshow"])).
Proof.
  intros Hs Ha value cur nv w'.
  pose proof (riseSetSlideType_spec args w i c p cm Hs Ha) as Hspec.
  cbn zeta in Hspec. fold value cur nv w' in Hspec.
  apply shell_notebook_Some in Hs as [_ Hl].
  apply active_cell_model_Some in Ha as [_ Hc].
  split; [unfold cell_metadata_at; by rewrite Hl, Hc|].
  destruct (strict_eq value (get_named cur "slide_type")); simpl in Hspec.
  - left. rewrite Hspec. split; [done|]. split; [done|].
    by apply new_calls_app.
  - right. rewrite obj_keys_length in Hspec.
    destruct nv as [|q o] eqn:Hnv; simpl in Hspec; rewrite Hspec.
    + right. split; [done|]. split; [done|]. split.
      * unfold cell_deleteMetadata.
        destruct (alter_cell_spec (emit (EvCellGetMetadata i c "slideshow") w)
                    i c p cm (delete "slideshow") Hl Hc)
          as (_ & _ & _ & _ & Hm & _).
        etrans; [exact Hm|]. apply lookup_delete_eq.
      * apply new_calls_app. simpl. by rewrite <- app_assoc.
    + left. split; [done|]. split; [by eauto|]. split.
      * unfold cell_setMetadata.
        destruct (alter_cell_spec (emit (EvCellGetMetadata i c "slideshow") w)
                    i c p cm (insert "slideshow" (JObj (q :: o))) Hl Hc)
          as (_ & _ & _ & _ & Hm & _).
        etrans; [exact Hm|]. apply lookup_insert_eq.
      * apply new_calls_app. simpl. by rewrite <- app_assoc.
Qed.

(** ** C8: the slide show metadata of the active cell *)

(** C8, as stated, fails when the command is executed without a type on a
    cell whose ['slideshow'] metadata is the empty object: [undefined] is
    the current ['slide_type'], nothing is written, and the empty object
    stays. *)
Lemma riseSetSlideType_leaves_empty_object :
  let w := one_notebook ∅ {["slideshow" := JObj []]} in
  cell_metadata_at (riseSetSlideType [] w) 0 0 "slideshow" = Some (JObj [])
  /\ ~ slideshow_never_empty [].
Proof.
  cbn zeta. split; [by vm_compute|].
  intros H.
  specialize (H (one_notebook ∅ {["slideshow" := JObj []]}) 0 0
                {| model := Some ∅; cells := [{["slideshow" := JObj []]}];
                   activeCell := Some 0 |}
                {["slideshow" := JObj []]}).
  vm_compute in H. by specialize (H eq_refl eq_refl).
Qed.

Lemma strict_eq_truthy (a b : jsval) :
  strict_eq a b = true -> truthy a = true -> exists x, b = Some x.
Proof.
  destruct a as [[]|], b as [[]|]; simpl; try discriminate; eauto.
Qed.

(** C8, amended: after an execution of [RISE:set-slide-type] on an active
    cell, the ['slideshow'] metadata of the cell is absent or a non-empty
    object, or the command has written nothing and the metadata is what it
    was (the type given is the current ['slide_type']).  So the property is
    kept when it holds before; it holds after every execution with a truthy
    type; the command never sets an empty object, and where the new value
    has no key it deletes the ['slideshow'] key. *)
Theorem slideshow_absent_or_nonempty (args : jsobj) (w : World) (i c : nat)
    (p : NotebookPanel) (cm : gmap string json) :
  shell_notebook w = Some (i, p) -> active_cell_model p = Some (c, cm) ->
  let w' := riseSetSlideType args w in
  let before := cell_metadata_at w i c "slideshow" in
  let after := cell_metadata_at w' i c "slideshow" in
  ((after = before
    /\ Forall (fun e => is_metadata_write e = false) (new_calls w w'))
   \/ absent_or_nonempty_object after = true)
  /\ (absent_or_nonempty_object before = true ->
      absent_or_nonempty_object after = true)
  /\ (truthy (obj_get "type" args) = true ->
      exists q o, after = Some (JObj (q :: o)))
  /\ (forall j c' k, ~ In (EvCellSetMetadata j c' k (JObj [])) (new_calls w w'))
  /\ (strict_eq (obj_get "type" args)
        (get_named (nullish before (JObj [])) "slide_type") = false ->
      new_slideshow (obj_get "type" args) (nullish before (JObj [])) = [] ->
      after = None
      /\ In (EvCellDeleteMetadata i c "slideshow") (new_calls w w')).
Proof.
  intros Hs Ha w' before after.
  destruct (riseSetSlideType_cases args w i c p cm Hs Ha) as (Hb & Hcases).
  cbn zeta in Hcases. fold w' after in Hcases. fold before in Hb.
  rewrite <- Hb in Hcases.
  assert (after = before
          /\ Forall (fun e => is_metadata_write e = false) (new_calls w w')
          \/ absent_or_nonempty_object after = true) as Hmain.
  { destruct Hcases as [(_ & Hp & Hn)|[(_ & (q & o & Hnv) & Ha' & _)
                                      |(_ & _ & Ha' & _)]].
    - left. split.
      + unfold after, before, cell_metadata_at. by rewrite Hp.
      + rewrite Hn. by repeat constructor.
    - right. by rewrite Ha', Hnv.
    - right. by rewrite Ha'. }
  split; [exact Hmain|]. split; [|split; [|split]].
  - intros Hok. destruct Hmain as [[-> _]|H]; done.
  - intros Htr.
    destruct Hcases as [(Heq & Hp & _)|[(_ & (q & o & Hnv) & Ha' & _)
                                       |(_ & Hnv & _)]].
    + destruct (strict_eq_truthy _ _ Heq Htr) as [x Hx].
      assert (after = before) as ->.
      { unfold after, before, cell_metadata_at. by rewrite Hp. }
      destruct before as [[| | | | |[|q o]]|]; simpl in Hx; try done.
      by eauto.
    + exists q, o. by rewrite Ha', Hnv.
    + destruct (new_slideshow_truthy _ (nullish before (JObj [])) Htr)
        as (q & o & Hq). congruence.
  - intros j c' k Hin.
    destruct Hcases as [(_ & _ & Hn)|[(_ & (q & o & Hnv) & _ & Hn)
                                     |(_ & _ & _ & Hn)]];
      rewrite Hn in Hin; simpl in Hin.
    + by destruct Hin.
    + destruct Hin as [Hin|[Hin|[]]]; [done|]. congruence.
    + destruct Hin as [Hin|[Hin|[]]]; done.
  - intros Hne Hnv.
    destruct Hcases as [(Heq & _)|[(_ & (q & o & Hnv') & _)
                                  |(_ & _ & Ha' & Hn)]].
    + congruence.
    + congruence.
    + split; [done|]. rewrite Hn. simpl. tauto.
Qed.

(** [slideshow_absent_or_nonempty] when the only key is removed: the cell
    is a slide and the command is executed with the type [null]. *)
Lemma slideshow_absent_or_nonempty_witness :
  let w := one_notebook ∅
             {["slideshow" := JObj [("slide_type", JStr "slide")]]} in
  let w' := riseSetSlideType [("type", JNull)] w in
  cell_metadata_at w' 0 0 "slideshow" = None
  /\ In (EvCellDeleteMetadata 0 0 "slideshow") (new_calls w w').
Proof.
  intros w w'.
  destruct (slideshow_absent_or_nonempty [("type", JNull)] w 0 0
              {| model := Some ∅;
                 cells := [{["slideshow" :=
                               JObj [("slide_type", JStr "slide")]]}];
                 activeCell := Some 0 |}
              {["slideshow" := JObj [("slide_type", JStr "slide")]]})
    as (_ & _ & _ & _ & Hdel); [vm_compute; reflexivity ..|].
  apply Hdel; vm_compute; reflexivity.
Defined.

(** ** C9: the command is idempotent *)

(** C9: executed with a type that is the current ['slide_type'] of the
    active cell ([undefined] when there is none), the command calls neither
    [setMetadata] nor [deleteMetadata] and leaves all metadata as it is; and
    for every argument, executing the command a second time leaves the
    metadata as the first execution left it. *)
Theorem riseSetSlideType_idempotent (args : jsobj) (w : World) :
  (primitive (obj_get "type" args) = true ->
   active_slide_type w = Some (obj_get "type" args) ->
   panels (riseSetSlideType args w) = panels w
   /\ Forall (fun e => is_metadata_write e = false)
        (new_calls w (riseSetSlideType args w)))
  /\ panels (riseSetSlideType args (riseSetSlideType args w))
     = panels (riseSetSlideType args w).
Proof.
  destruct (shell_notebook w) as [[i p]|] eqn:Hs.
  2:{ unfold active_slide_type. rewrite Hs. split; [done|].
      assert (riseSetSlideType args w = w) as Hid
        by (unfold riseSetSlideType; by rewrite Hs).
      by rewrite !Hid. }
  destruct (active_cell_model p) as [[c cm]|] eqn:Ha.
  2:{ unfold active_slide_type. rewrite Hs, Ha. split; [done|].
      assert (riseSetSlideType args w = w) as Hid
        by (unfold riseSetSlideType; by rewrite Hs, Ha).
      by rewrite !Hid. }
  pose proof (riseSetSlideType_spec args w i c p cm Hs Ha) as Hspec.
  cbn zeta in Hspec.
  set (value := obj_get "type" args) in *.
  set (cur := nullish (cm !! "slideshow") (JObj [])) in *.
  set (nv := new_slideshow value cur) in *.
  set (w1 := emit (EvCellGetMetadata i c "slideshow") w) in *.
  split.
  - intros Hprim Hact. unfold active_slide_type in Hact.
    rewrite Hs, Ha in Hact. injection Hact as Hact. fold cur in Hact.
    assert (strict_eq value (get_named cur "slide_type") = true) as Heq
      by (by apply strict_eq_primitive).
    rewrite Heq in Hspec. simpl in Hspec. rewrite Hspec. split; [done|].
    rewrite (new_calls_app w w1 [EvCellGetMetadata i c "slideshow"] eq_refl).
    by repeat constructor.
  - pose proof Hs as [Hsc Hl]%shell_notebook_Some.
    pose proof Ha as [Hac Hc]%active_cell_model_Some.
    destruct (strict_eq value (get_named cur "slide_type")) eqn:Heq;
      simpl in Hspec.
    + rewrite Hspec.
      pose proof (riseSetSlideType_spec args w1 i c p cm Hs Ha) as Hspec2.
      cbn zeta in Hspec2. fold value cur in Hspec2.
      rewrite Heq in Hspec2. simpl in Hspec2. by rewrite Hspec2.
    + assert (exists e F,
                riseSetSlideType args w = emit e (alter_cell i c F w1)
                /\ nullish (F cm !! "slideshow") (JObj []) = JObj nv
                /\ F (F cm) = F cm
                /\ (if 0 <? length (obj_keys nv)
                    then F = insert "slideshow" (JObj nv)
                    else F = delete "slideshow"))
        as (e & F & He & Hcur' & HF & Hif).
      { rewrite Hspec. destruct (0 <? length (obj_keys nv)) eqn:Hlen.
        - eexists _, (insert "slideshow" (JObj nv)).
          split; [reflexivity|]. split; [by rewrite lookup_insert_eq|].
          split; [apply insert_insert_eq|done].
        - eexists _, (delete "slideshow").
          split; [reflexivity|]. rewrite obj_keys_length in Hlen.
          destruct nv; [|done].
          split; [by rewrite lookup_delete_eq|].
          split; [apply delete_delete_eq|done]. }
      destruct (alter_cell_spec w1 i c p cm F Hl Hc)
        as (Hl' & Hc' & Hact' & _).
      pose proof (riseSetSlideType_spec args (emit e (alter_cell i c F w1))
                    i c (panel_alter_cell c F p) (F cm)) as Hspec2.
      cbn zeta in Hspec2. fold value in Hspec2.
      assert (new_slideshow value (JObj nv) = nv) as Hid
        by apply new_slideshow_idemp.
      rewrite Hcur', Hid in Hspec2.
      rewrite He, Hspec2.
      2:{ apply shell_notebook_Some. split; [exact Hsc|exact Hl']. }
      2:{ apply active_cell_model_Some. by rewrite Hact'. }
      destruct (negb (strict_eq value (get_named (JObj nv) "slide_type")));
        [|done].
      pose proof (alter_cell_twice w1 i c p cm F F Hl Hc HF) as Htwice.
      destruct (0 <? length (obj_keys nv)); subst F;
        unfold cell_setMetadata, cell_deleteMetadata;
        cbn [panels emit]; exact Htwice.
Qed.

(** [riseSetSlideType_idempotent] on a cell that is a slide already. *)
Lemma riseSetSlideType_idempotent_witness :
  let w := one_notebook ∅
             {["slideshow" := JObj [("slide_type", JStr "slide")]]} in
  let args := [("type", JStr "slide")] in
  panels (riseSetSlideType args w) = panels w
  /\ new_calls w (riseSetSlideType args w)
     = [EvCellGetMetadata 0 0 "slideshow"].
Proof.
  intros w args.
  destruct (riseSetSlideType_idempotent args w) as [Hsame _].
  destruct Hsame as [Hp _]; [vm_compute; reflexivity ..|].
  split; [exact Hp|]. vm_compute. reflexivity.
Defined.

(** ** C3: what the handlers write *)

(** C3, as stated, fails for the [RISE:set-slide-type] command: executed
    with the type ['slide'] on a cell without metadata, it sets the
    ['slideshow'] metadata of that cell. *)
Lemma riseSetSlideType_writes_cell_metadata :
  let w := one_notebook ∅ ∅ in
  let w' := riseSetSlideType [("type", JStr "slide")] w in
  cell_metadata_at w 0 0 "slideshow" = None
  /\ cell_metadata_at w' 0 0 "slideshow"
     = Some (JObj [("slide_type", JStr "slide")])
  /\ new_calls w w'
     = [EvCellGetMetadata 0 0 "slideshow";
        EvCellSetMetadata 0 0 "slideshow" (JObj [("slide_type", JStr "slide")])]
  /\ ~ writes_only_rise (OpRiseSetSlideType [("type", JStr "slide")]).
Proof.
  cbn zeta. split; [by vm_compute|]. split; [by vm_compute|].
  split; [by vm_compute|].
  intros H. destruct (H (one_notebook ∅ ∅) _ eq_refl) as [_ Hcell].
  specialize (Hcell 0 0 "slideshow"). vm_compute in Hcell. discriminate.
Qed.

Lemma alter_cell_frame (w : World) (i c : nat) (p : NotebookPanel)
    (cm : gmap string json) (key : string)
    (f : gmap string json -> gmap string json) :
  panels w !! i = Some p -> cells p !! c = Some cm ->
  (forall k, k <> key -> f cm !! k = cm !! k) ->
  forall j c' k, (j, c', k) <> (i, c, key) ->
    cell_metadata_at (alter_cell i c f w) j c' k = cell_metadata_at w j c' k.
Proof.
  intros Hl Hc Hf j c' k Hne.
  assert (i < length (panels w)) as Hi by (by eapply lookup_lt_Some).
  assert (c < length (cells p)) as Hlt by (by eapply lookup_lt_Some).
  unfold cell_metadata_at, alter_cell. cbn [panels set_panels]. rewrite Hl.
  destruct (decide (j = i)) as [->|Hj].
  2:{ by rewrite list_lookup_insert_ne. }
  rewrite list_lookup_insert_eq by done. rewrite Hl.
  unfold panel_alter_cell. cbn [cells]. rewrite Hc.
  destruct (decide (c' = c)) as [->|Hc'].
  2:{ by rewrite list_lookup_insert_ne. }
  rewrite list_lookup_insert_eq by done. rewrite Hc.
  apply Hf. congruence.
Qed.

Lemma riseSetSlideType_frame (args : jsobj) (w : World) :
  (forall j k, metadata_at (riseSetSlideType args w) j k = metadata_at w j k)
  /\ (forall j c' k,
        cell_metadata_at (riseSetSlideType args w) j c' k
        <> cell_metadata_at w j c' k ->
        k = "slideshow"
        /\ exists p, shell_notebook w = Some (j, p) /\ activeCell p = Some c').
Proof.
  destruct (shell_notebook w) as [[i p]|] eqn:Hs.
  2:{ assert (riseSetSlideType args w = w) as ->
        by (unfold riseSetSlideType; by rewrite Hs).
      split; [done|]. by intros j c' k []. }
  destruct (active_cell_model p) as [[c cm]|] eqn:Ha.
  2:{ assert (riseSetSlideType args w = w) as ->
        by (unfold riseSetSlideType; by rewrite Hs, Ha).
      split; [done|]. by intros j c' k []. }
  rewrite (riseSetSlideType_spec args w i c p cm Hs Ha).
  pose proof Hs as [_ Hl]%shell_notebook_Some.
  pose proof Ha as [Hac Hc]%active_cell_model_Some.
  set (w1 := emit (EvCellGetMetadata i c "slideshow") w).
  assert (forall f : gmap string json -> gmap string json,
            (forall k, k <> "slideshow" -> f cm !! k = cm !! k) ->
            forall e,
            (forall j k, metadata_at (emit e (alter_cell i c f w1)) j k
                         = metadata_at w j k)
            /\ (forall j c' k,
                  cell_metadata_at (emit e (alter_cell i c f w1)) j c' k
                  <> cell_metadata_at w j c' k ->
                  k = "slideshow"
                  /\ exists p0, Some (i, p) = Some (j, p0)
                                /\ activeCell p0 = Some c')) as Halter.
  { intros f Hf e. split.
    - intros j k.
      destruct (alter_cell_spec w1 i c p cm f Hl Hc)
        as (_ & _ & _ & _ & _ & Hm).
      exact (Hm j k).
    - intros j c' k Hne.
      destruct (decide ((j, c', k) = (i, c, "slideshow"))) as [[= -> -> ->]|Hd].
      + split; [done|]. by exists p.
      + exfalso. apply Hne.
        apply (alter_cell_frame w1 i c p cm "slideshow" f Hl Hc Hf j c' k Hd). }
  destruct (negb _).
  2:{ split; [done|]. by intros j c' k []. }
  destruct (0 <? _).
  - apply Halter. intros k Hk. by apply lookup_insert_ne.
  - apply Halter. intros k Hk. by apply lookup_delete_ne.
Qed.

Lemma riseFullScreen_panels (h : FullScreenHost) (args : jsobj)
    (w : World) :
  panels (world_of (riseFullScreen h args w)) = panels w.
Proof.
  unfold riseFullScreen.
  set (w1 := match obj_get "id" args with
             | Some x =>
                 if truthy (obj_get "id" args)
                 then emit (EvActivateById x) w else w
             | None => w
             end).
  assert (panels w1 = panels w) as <-.
  { unfold w1. destruct (obj_get "id" args) as [x|]; [|done].
    by destruct (truthy (Some x)). }
  repeat case_match; done.
Qed.

Lemma widgetAdded_panels (h : AddedHost) (i : nat) (w : World)
    (c : Completion) :
  widgetAdded h i w = Some c -> panels (world_of c) = panels w.
Proof.
  unfold widgetAdded. destruct (panels w !! i) as [p|]; [|done].
  match goal with
  | |- match ?l with _ => _ end = _ -> _ =>
      assert (panels (world_of l) = panels w) as Hl; [|destruct l]
  end.
  - destruct (negb _); [|done]. destruct (contextReady h); [|done].
    destruct (truthy _); [|done].
    by destruct (risePreview_effect (launch h) [("fullscreen", JBool true)]
                   (emit (EvExecute "RISE:preview"
                            [("fullscreen", JBool true)])
                      (emit (EvToolbarInsert i "RISE-button") w))).
  - by intros [= <-].
  - by intros [= <-].
Qed.

(** The notebook-level metadata after a theme operation that has called
    [setMetadata('rise', v)] on the current notebook [i0]. *)
Lemma setMetadata_rise_frame (w w' : World) (i0 : nat) (p : NotebookPanel)
    (m : gmap string json) (v : json) :
  tracker_current w = Some (i0, p) -> model p = Some m ->
  panels w' = <[i0 := panel_setMetadata "rise" v p]> (panels w) ->
  (forall i k, k <> "rise" -> metadata_at w' i k = metadata_at w i k)
  /\ (forall i c k, cell_metadata_at w' i c k = cell_metadata_at w i c k)
  /\ (forall i, metadata_at w' i "rise" <> metadata_at w i "rise" ->
                currentWidget w = Some i).
Proof.
  intros [Hcw Hl]%tracker_current_Some Hm Hp.
  destruct (metadata_at_setMetadata w w' i0 p m "rise" v Hl Hm Hp)
    as (_ & Hother & Hcells).
  split; [|split; [done|]].
  - intros i k Hk. apply Hother. congruence.
  - intros i Hne. destruct (decide (i = i0)) as [->|Hi]; [done|].
    exfalso. apply Hne, Hother. congruence.
Qed.

(** C3, amended: a handler changes the metadata of a notebook under the
    ['rise'] key only, and only the [RISE:set-theme] command and the
    picker's [updateMetadata] do so, on the current notebook; the only
    metadata of a cell a handler changes is that under ['slideshow'] of the
    active cell of the notebook in the shell, which the
    [RISE:set-slide-type] command sets or deletes. *)
Theorem handlers_write_rise_and_slideshow (op : Operation) (w w' : World) :
  run op w = Some w' ->
  (forall i k, k <> "rise" -> metadata_at w' i k = metadata_at w i k)
  /\ (forall i, metadata_at w' i "rise" <> metadata_at w i "rise" ->
        currentWidget w = Some i
        /\ ((exists args, op = OpRiseSetTheme args)
            \/ (exists t, op = OpUpdateMetadata t)))
  /\ (forall i c k,
        cell_metadata_at w' i c k <> cell_metadata_at w i c k ->
        k = "slideshow"
        /\ (exists args, op = OpRiseSetSlideType args)
        /\ exists p, shell_notebook w = Some (i, p) /\ activeCell p = Some c).
Proof.
  intros Hrun.
  assert (forall w' : World, panels w' = panels w ->
          (forall i k, k <> "rise" -> metadata_at w' i k = metadata_at w i k)
          /\ (forall i, metadata_at w' i "rise" <> metadata_at w i "rise" ->
                currentWidget w = Some i
                /\ ((exists args, op = OpRiseSetTheme args)
                    \/ (exists t, op = OpUpdateMetadata t)))
          /\ (forall i c k,
                cell_metadata_at w' i c k <> cell_metadata_at w i c k ->
                k = "slideshow"
                /\ (exists args, op = OpRiseSetSlideType args)
                /\ exists p, shell_notebook w = Some (i, p)
                             /\ activeCell p = Some c)) as Hsame.
  { clear w' Hrun. intros w' Hp.
    destruct (metadata_at_same_panels w w' Hp) as [Hm Hc].
    split; [by intros|]. split.
    - intros i Hne. exfalso. by apply Hne.
    - intros i c k Hne. exfalso. by apply Hne. }
  destruct op as [saved|h args|h args|args|args| |t|h i0| | |h accept id];
    simpl in Hrun; try (injection Hrun as <-).
  - apply Hsame. unfold openRise.
    by destruct (tracker_current w) as [[]|], saved.
  - apply Hsame. by destruct (risePreview_effect h args w).
  - apply Hsame. apply riseFullScreen_panels.
  - destruct (riseSetSlideType_frame args w) as [Hm Hc].
    split; [by intros|]. split.
    + intros i Hne. exfalso. by apply Hne.
    + intros i c k Hne. destruct (Hc i c k Hne) as [-> Hp]. eauto.
  - destruct (riseSetTheme_outcome args w)
      as [_ ->|i0 p m t r w2 Hcur Hm _ _ _ -> Hp _|i0 p m t _ _ _ _ _ ->];
      simpl; try (by apply Hsame).
    destruct (setMetadata_rise_frame w w2 i0 p m r Hcur Hm Hp)
      as (H1 & H2 & H3).
    split; [done|]. split.
    + intros i Hne. split; [by apply H3|]. left. by eexists.
    + intros i c k Hne. exfalso. by apply Hne.
  - apply Hsame. by destruct (openThemePicker_effect w).
  - destruct (has_model w) eqn:Hhm.
    2:{ apply Hsame. by rewrite updateMetadata_no_model. }
    destruct (updateMetadata_calls t w Hhm)
      as (i0 & p & m & _ & _ & o & Hcur & Hm & Hp & _).
    destruct (setMetadata_rise_frame w _ i0 p m (JObj o) Hcur Hm Hp)
      as (H1 & H2 & H3).
    split; [done|]. split.
    + intros i Hne. split; [by apply H3|]. right. by eexists.
    + intros i c k Hne. exfalso. by apply Hne.
  - destruct (widgetAdded h i0 w) as [c|] eqn:Hc; [|done].
    injection Hrun as <-. apply Hsame. by eapply widgetAdded_panels.
  - by apply Hsame.
  - by apply Hsame.
  - apply Hsame. unfold fullScreenDialog_then. destruct accept; [|done].
    apply (riseFullScreen_panels h [("id", JStr id)]
             (emit (EvExecute "RISE:fullscreen-plugin" [("id", JStr id)]) w)).
Qed.

(** [handlers_write_rise_and_slideshow] for the command that sets the slide
    type, on a notebook with a theme and a kernel: nothing of the notebook
    changes, and the cell that changes is the active one. *)
Lemma handlers_write_rise_and_slideshow_witness :
  let w := one_notebook {["rise" := JObj [("theme", JStr "sky")]]} ∅ in
  let w' := riseSetSlideType [("type", JStr "notes")] w in
  metadata_at w' 0 "kernelspec" = metadata_at w 0 "kernelspec"
  /\ exists p, shell_notebook w = Some (0, p) /\ activeCell p = Some 0.
Proof.
  intros w w'.
  destruct (handlers_write_rise_and_slideshow
              (OpRiseSetSlideType [("type", JStr "notes")]) w w' eq_refl)
    as (Hother & _ & Hcell).
  split.
  - apply Hother. discriminate.
  - apply (Hcell 0 0 "slideshow"). vm_compute. discriminate.
Defined.

(** ** Further properties of [RISE:set-slide-type] *)

Lemma strict_eq_eq (a b : jsval) : strict_eq a b = true -> a = b.
Proof.
  destruct a as [[| x | x | x | |]|], b as [[| y | y | y | |]|];
    simpl; try discriminate; try done.
  - by intros ->%Bool.eqb_prop.
  - by intros ->%Z.eqb_eq.
  - by intros ->%String.eqb_eq.
Qed.

Lemma strict_eq_sym (a b : jsval) : strict_eq a b = strict_eq b a.
Proof.
  destruct a as [[| x | x | x | |]|], b as [[| y | y | y | |]|];
    simpl; try done.
  - by destruct x, y.
  - apply Z.eqb_sym.
  - apply String.eqb_sym.
Qed.

Lemma obj_delete_set (k : string) (v : json) (o : jsobj) :
  obj_get k o = None -> obj_delete k (obj_set k v o) = o.
Proof.
  induction o as [|[k' v'] o IH]; simpl.
  - by rewrite String.eqb_refl.
  - destruct (String.eqb k' k) eqn:E; [done|]. simpl. rewrite E.
    intros H. by rewrite IH.
Qed.

Lemma obj_get_delete_ne (k k' : string) (o : jsobj) :
  k <> k' -> obj_get k' (obj_delete k o) = obj_get k' o.
Proof.
  intros Hne. induction o as [|[k1 v1] o IH]; simpl; [done|].
  destruct (String.eqb k1 k) eqn:E; simpl.
  - apply String.eqb_eq in E as ->.
    by apply String.eqb_neq in Hne as ->.
  - by rewrite IH.
Qed.

(** The notebook in the shell and its active cell after the command. *)
Lemma riseSetSlideType_after (args : jsobj) (w : World) (i c : nat)
    (p : NotebookPanel) (cm : gmap string json) :
  shell_notebook w = Some (i, p) -> active_cell_model p = Some (c, cm) ->
  exists p' cm',
    shell_notebook (riseSetSlideType args w) = Some (i, p')
    /\ active_cell_model p' = Some (c, cm')
    /\ cm' !! "slideshow"
       = cell_metadata_at (riseSetSlideType args w) i c "slideshow".
Proof.
  intros Hs Ha.
  rewrite (riseSetSlideType_spec args w i c p cm Hs Ha).
  pose proof Hs as [Hsc Hl]%shell_notebook_Some.
  pose proof Ha as [Hac Hc]%active_cell_model_Some.
  set (w1 := emit (EvCellGetMetadata i c "slideshow") w).
  assert (forall (f : gmap string json -> gmap string json) e,
            exists p' cm',
              shell_notebook (emit e (alter_cell i c f w1)) = Some (i, p')
              /\ active_cell_model p' = Some (c, cm')
              /\ cm' !! "slideshow"
                 = cell_metadata_at (emit e (alter_cell i c f w1)) i c
                     "slideshow") as Halter.
  { intros f e.
    destruct (alter_cell_spec w1 i c p cm f Hl Hc)
      as (Hl' & Hc' & Hact' & _ & Hm & _).
    exists (panel_alter_cell c f p), (f cm). split; [|split].
    - apply shell_notebook_Some. split; [exact Hsc|exact Hl'].
    - apply active_cell_model_Some. by rewrite Hact'.
    - symmetry. exact Hm. }
  destruct (negb _).
  2:{ exists p, cm. split; [exact Hs|]. split; [exact Ha|].
      unfold cell_metadata_at. cbn [panels emit w1]. by rewrite Hl, Hc. }
  destruct (0 <? _); apply Halter.
Qed.

(** X1: executed with a truthy type on an active cell, the command leaves an
    object under ['slideshow'] whose ['slide_type'] is that type and whose
    other keys are those of the former value, with their values. *)
Theorem riseSetSlideType_sets_type (args : jsobj) (w : World) (i c : nat)
    (p : NotebookPanel) (cm : gmap string json) (v : json) :
  shell_notebook w = Some (i, p) -> active_cell_model p = Some (c, cm) ->
  obj_get "type" args = Some v -> truthy (Some v) = true ->
  exists o,
    cell_metadata_at (riseSetSlideType args w) i c "slideshow" = Some (JObj o)
    /\ obj_get "slide_type" o = Some v
    /\ forall k, k <> "slide_type" ->
         obj_get k o = obj_get k (spread (nullish (cm !! "slideshow") (JObj []))).
Proof.
  intros Hs Ha Hv Htr.
  destruct (riseSetSlideType_cases args w i c p cm Hs Ha) as (Hb & Hcases).
  cbn zeta in Hcases. rewrite Hv in Hcases.
  set (cur := nullish (cm !! "slideshow") (JObj [])) in *.
  destruct Hcases as [(Heq & Hp & _)|[(_ & _ & Hafter & _)|(_ & Hnv & _)]].
  - apply strict_eq_eq in Heq.
    assert (cell_metadata_at (riseSetSlideType args w) i c "slideshow"
            = cm !! "slideshow") as ->.
    { rewrite <- Hb. unfold cell_metadata_at. by rewrite Hp. }
    unfold cur in *. destruct (cm !! "slideshow") as [[| | | | |o]|];
      simpl in Heq; try done.
    exists o. by split.
  - exists (new_slideshow (Some v) cur). split; [exact Hafter|].
    unfold new_slideshow. rewrite Htr. split.
    + apply obj_get_set_eq.
    + intros k Hk. by apply obj_get_set_ne.
  - destruct (new_slideshow_truthy (Some v) cur Htr) as (q & o & Hq).
    congruence.
Qed.

(** [riseSetSlideType_sets_type] on a slide with a note that becomes a
    fragment. *)
Lemma riseSetSlideType_sets_type_witness :
  exists o,
    cell_metadata_at
      (riseSetSlideType [("type", JStr "fragment")]
         (one_notebook ∅
            {["slideshow" := JObj [("slide_type", JStr "slide");
                                   ("note", JStr "intro")]]}))
      0 0 "slideshow" = Some (JObj o)
    /\ obj_get "slide_type" o = Some (JStr "fragment")
    /\ obj_get "note" o = Some (JStr "intro").
Proof.
  destruct (riseSetSlideType_sets_type [("type", JStr "fragment")]
              (one_notebook ∅
                 {["slideshow" := JObj [("slide_type", JStr "slide");
                                        ("note", JStr "intro")]]})
              0 0
              {| model := Some ∅;
                 cells := [{["slideshow" :=
                               JObj [("slide_type", JStr "slide");
                                     ("note", JStr "intro")]]}];
                 activeCell := Some 0 |}
              {["slideshow" := JObj [("slide_type", JStr "slide");
                                     ("note", JStr "intro")]]}
              (JStr "fragment"))
    as (o & Hafter & Htype & Hother); [vm_compute; reflexivity ..|].
  exists o. split; [exact Hafter|]. split; [exact Htype|].
  rewrite Hother; [vm_compute; reflexivity|discriminate].
Defined.

Lemma isEnabled_type (args : jsobj) :
  riseSetSlideType_isEnabled args = true ->
  exists s, obj_get "type" args = Some (JStr s) /\ In s slideTypes.
Proof.
  unfold riseSetSlideType_isEnabled. intros H.
  apply existsb_exists in H as (s & Hin & Heq).
  apply strict_eq_eq in Heq. injection Heq as Heq.
  destruct (obj_get "type" args) as [[| | | t | |]|] eqn:Ht;
    simpl in Heq; try discriminate.
  - injection Heq as ->. simpl in Hin. intuition discriminate.
  - injection Heq as ->. eauto.
  - injection Heq as ->. simpl in Hin. intuition discriminate.
Qed.

(** X2: after the command has been executed on an active cell with one of
    the five slide types (the types for which it is enabled), [isToggled]
    holds for that type and for no other string. *)
Theorem riseSetSlideType_then_isToggled (args args' : jsobj) (w : World)
    (i c : nat) (p : NotebookPanel) (cm : gmap string json) (s' : string) :
  shell_notebook w = Some (i, p) -> active_cell_model p = Some (c, cm) ->
  riseSetSlideType_isEnabled args = true ->
  obj_get "type" args' = Some (JStr s') ->
  riseSetSlideType_isToggled args (riseSetSlideType args w) = true
  /\ (riseSetSlideType_isToggled args' (riseSetSlideType args w) = true
      <-> obj_get "type" args = Some (JStr s')).
Proof.
  intros Hs Ha Hen Ht'.
  destruct (isEnabled_type args Hen) as (s & Ht & Hin).
  assert (truthy (Some (JStr s)) = true) as Htr.
  { simpl in Hin. by destruct Hin as [<-|[<-|[<-|[<-|[<-|[]]]]]]. }
  destruct (riseSetSlideType_sets_type args w i c p cm (JStr s) Hs Ha Ht Htr)
    as (o & Hafter & Hst & _).
  destruct (riseSetSlideType_after args w i c p cm Hs Ha)
    as (p' & cm' & Hs' & Ha' & Hcm').
  rewrite Hafter in Hcm'.
  unfold riseSetSlideType_isToggled. rewrite Hs', Ha', Hcm', Ht, Ht'.
  cbn [nullish get_named]. rewrite Hst, Htr. cbn [strict_eq].
  rewrite String.eqb_refl. split; [done|].
  split.
  - intros [Heq _]%andb_prop. by apply String.eqb_eq in Heq as ->.
  - intros [= ->]. by rewrite String.eqb_refl, Htr.
Qed.

(** [riseSetSlideType_then_isToggled] after the type ['skip'] was set on a
    cell without metadata. *)
Lemma riseSetSlideType_then_isToggled_witness :
  let w := riseSetSlideType [("type", JStr "skip")] (one_notebook ∅ ∅) in
  riseSetSlideType_isToggled [("type", JStr "skip")] w = true
  /\ riseSetSlideType_isToggled [("type", JStr "notes")] w = false.
Proof.
  destruct (riseSetSlideType_then_isToggled
              [("type", JStr "skip")] [("type", JStr "notes")]
              (one_notebook ∅ ∅) 0 0
              {| model := Some ∅; cells := [∅]; activeCell := Some 0 |}
              ∅ "notes")
    as (Hon & Hoff); [vm_compute; reflexivity ..|].
  split; [exact Hon|].
  destruct (riseSetSlideType_isToggled [("type", JStr "notes")] _) eqn:E;
    [|reflexivity].
  destruct Hoff as [Hoff _]. specialize (Hoff eq_refl). discriminate Hoff.
Defined.

(** X3: where [isToggled] holds, executing the command calls neither
    [setMetadata] nor [deleteMetadata] and leaves all metadata as it is: the
    command sets a slide type and never removes the one that is set. *)
Theorem isToggled_execute_writes_nothing (args : jsobj) (w : World) :
  riseSetSlideType_isToggled args w = true ->
  panels (riseSetSlideType args w) = panels w
  /\ Forall (fun e => is_metadata_write e = false)
       (new_calls w (riseSetSlideType args w))
  /\ riseSetSlideType_isToggled args (riseSetSlideType args w) = true.
Proof.
  unfold riseSetSlideType_isToggled at 1.
  destruct (shell_notebook w) as [[i p]|] eqn:Hs; [|done].
  destruct (active_cell_model p) as [[c cm]|] eqn:Ha; [|done].
  intros [Heq Htr]%andb_prop. rewrite strict_eq_sym in Heq.
  pose proof (riseSetSlideType_spec args w i c p cm Hs Ha) as Hspec.
  cbn zeta in Hspec. rewrite Heq in Hspec. simpl in Hspec.
  rewrite Hspec. split; [done|]. split.
  - rewrite (new_calls_app w (emit (EvCellGetMetadata i c "slideshow") w)
               [EvCellGetMetadata i c "slideshow"] eq_refl).
    by repeat constructor.
  - unfold riseSetSlideType_isToggled.
    assert (shell_notebook (emit (EvCellGetMetadata i c "slideshow") w)
            = Some (i, p)) as -> by exact Hs.
    rewrite Ha, Htr. by rewrite strict_eq_sym, Heq.
Qed.

(** [isToggled_execute_writes_nothing] on a cell that is a slide. *)
Lemma isToggled_execute_writes_nothing_witness :
  let w := one_notebook ∅
             {["slideshow" := JObj [("slide_type", JStr "slide")]]} in
  panels (riseSetSlideType [("type", JStr "slide")] w) = panels w.
Proof.
  intros w.
  destruct (isToggled_execute_writes_nothing [("type", JStr "slide")] w)
    as (Hp & _); [vm_compute; reflexivity|exact Hp].
Defined.

(** X4: setting a slide type and then unsetting it (the command executed
    with a truthy type, then without a type or with a falsy one) gives back
    the ['slideshow'] metadata of the active cell, when the cell had none or
    had a non-empty object without ['slide_type']. *)
Theorem riseSetSlideType_set_then_unset (args args' : jsobj) (w : World)
    (i c : nat) (p : NotebookPanel) (cm : gmap string json) :
  shell_notebook w = Some (i, p) -> active_cell_model p = Some (c, cm) ->
  truthy (obj_get "type" args) = true ->
  truthy (obj_get "type" args') = false ->
  cm !! "slideshow" = None
  \/ (exists q o, cm !! "slideshow" = Some (JObj (q :: o))
                  /\ obj_get "slide_type" (q :: o) = None) ->
  cell_metadata_at (riseSetSlideType args' (riseSetSlideType args w))
    i c "slideshow"
  = cm !! "slideshow".
Proof.
  intros Hs Ha Htr Hfalsy Hbefore.
  destruct (obj_get "type" args) as [v|] eqn:Hv; [|done].
  destruct (riseSetSlideType_cases args w i c p cm Hs Ha) as (_ & Hcases).
  cbn zeta in Hcases. rewrite Hv in Hcases.
  set (cur := nullish (cm !! "slideshow") (JObj [])) in *.
  assert (get_named cur "slide_type" = None
          /\ obj_get "slide_type" (spread cur) = None) as [Hnone Hnone'].
  { unfold cur. destruct Hbefore as [->|(q & o & -> & Hq)]; by simpl. }
  rewrite Hnone in Hcases.
  assert (cell_metadata_at (riseSetSlideType args w) i c "slideshow"
          = Some (JObj (obj_set "slide_type" v (spread cur)))) as Hafter.
  { destruct Hcases as [(Heq & _)|[(_ & _ & Hafter & _)|(_ & Hnv & _)]].
    - by destruct v.
    - rewrite Hafter. unfold new_slideshow. by rewrite Htr.
    - destruct (new_slideshow_truthy (Some v) cur Htr) as (q & o & Hq).
      congruence. }
  destruct (riseSetSlideType_after args w i c p cm Hs Ha)
    as (p' & cm' & Hs' & Ha' & Hcm').
  rewrite Hafter in Hcm'.
  destruct (riseSetSlideType_cases args' (riseSetSlideType args w)
              i c p' cm' Hs' Ha') as (_ & Hcases').
  cbn zeta in Hcases'. rewrite Hcm' in Hcases'. cbn [nullish] in Hcases'.
  cbn [get_named] in Hcases'. rewrite obj_get_set_eq in Hcases'.
  assert (new_slideshow (obj_get "type" args')
            (JObj (obj_set "slide_type" v (spread cur))) = spread cur)
    as Hnv'.
  { unfold new_slideshow. destruct (obj_get "type" args') as [v'|];
      rewrite ?Hfalsy; cbn [spread]; by apply obj_delete_set. }
  rewrite Hnv' in Hcases'.
  destruct Hcases' as [(Heq & _)|[(_ & (q0 & o0 & Hq0) & -> & _)
                                 |(_ & Hempty & -> & _)]].
  - exfalso. apply strict_eq_eq in Heq. rewrite Heq in Hfalsy. congruence.
  - unfold cur in *.
    destruct Hbefore as [Hb|(q & o & Hb & _)]; rewrite Hb in *; done.
  - unfold cur in Hempty.
    destruct Hbefore as [Hb|(q & o & Hb & _)]; rewrite Hb in *; done.
Qed.

(** [riseSetSlideType_set_then_unset] on a cell that has a note and no
    slide type. *)
Lemma riseSetSlideType_set_then_unset_witness :
  let w := one_notebook ∅ {["slideshow" := JObj [("note", JStr "intro")]]} in
  cell_metadata_at
    (riseSetSlideType [] (riseSetSlideType [("type", JStr "slide")] w))
    0 0 "slideshow"
  = Some (JObj [("note", JStr "intro")]).
Proof.
  intros w.
  rewrite (riseSetSlideType_set_then_unset [("type", JStr "slide")] [] w 0 0
             {| model := Some ∅;
                cells := [{["slideshow" := JObj [("note", JStr "intro")]]}];
                activeCell := Some 0 |}
             {["slideshow" := JObj [("note", JStr "intro")]]});
    [vm_compute; reflexivity ..|].
  right. exists ("note", JStr "intro"), []. split; vm_compute; reflexivity.
Defined.

(** ** Further properties of the theme operations *)

Lemma obj_set_set (k : string) (v v' : json) (o : jsobj) :
  obj_set k v' (obj_set k v o) = obj_set k v' o.
Proof.
  induction o as [|[k1 v1] o IH]; simpl.
  - by rewrite String.eqb_refl.
  - destruct (String.eqb k1 k) eqn:E; simpl.
    + by rewrite String.eqb_refl.
    + by rewrite E, IH.
Qed.

Lemma updateMetadata_currentWidget (t : string) (w : World) :
  currentWidget (updateMetadata t w) = currentWidget w.
Proof.
  unfold updateMetadata.
  destruct (tracker_current w) as [[i p]|]; [|done].
  destruct (model p); [|done].
  unfold _refreshRisePreview, set_status, setMetadata, save, getMetadata.
  cbn [fst snd emit set_panels set_document document currentWidget].
  destruct (statusEl (document w));
    cbn [emit set_panels set_document document currentWidget];
    match goal with
    | |- context [foldl _ ?w0 ?evs] =>
        destruct (foldl_emit_rest evs w0) as (_ & _ & -> & _)
    end; done.
Qed.

(** The current notebook after [updateMetadata]. *)
Lemma updateMetadata_after (t : string) (w : World) (i : nat)
    (p : NotebookPanel) (m : gmap string json) :
  tracker_current w = Some (i, p) -> model p = Some m ->
  let v := JObj (obj_set "theme" (JStr t) (spread (or_empty (m !! "rise")))) in
  tracker_current (updateMetadata t w)
  = Some (i, panel_setMetadata "rise" v p)
  /\ model (panel_setMetadata "rise" v p) = Some (<["rise" := v]> m).
Proof.
  intros Hcur Hm v.
  destruct (updateMetadata_effect t w i p m Hcur Hm) as (Hp & _ & _).
  apply tracker_current_Some in Hcur as [Hcw Hl].
  split.
  - apply tracker_current_Some. rewrite updateMetadata_currentWidget.
    split; [done|]. rewrite Hp. apply list_lookup_insert_eq.
    by eapply lookup_lt_Some.
  - unfold panel_setMetadata. simpl. by rewrite Hm.
Qed.

(** X5: the last theme chosen in the picker wins: after [updateMetadata]
    with [t1] and then with [t2], the metadata of every notebook and cell is
    what [updateMetadata] with [t2] alone gives; in particular choosing the
    same theme twice changes nothing the second time. *)
Theorem updateMetadata_last_theme_wins (t1 t2 : string) (w : World) :
  panels (updateMetadata t2 (updateMetadata t1 w))
  = panels (updateMetadata t2 w)
  /\ panels (updateMetadata t1 (updateMetadata t1 w))
     = panels (updateMetadata t1 w).
Proof.
  assert (forall a b,
            panels (updateMetadata b (updateMetadata a w))
            = panels (updateMetadata b w)) as H.
  { intros a b. destruct (has_model w) eqn:Hhm.
    2:{ by rewrite (updateMetadata_no_model a w Hhm). }
    apply has_model_true in Hhm as (i & p & m & Hcur & Hm).
    destruct (updateMetadata_after a w i p m Hcur Hm) as [Hcur1 Hm1].
    destruct (updateMetadata_effect a w i p m Hcur Hm) as (Hp1 & _ & _).
    destruct (updateMetadata_effect b w i p m Hcur Hm) as (Hp2 & _ & _).
    destruct (updateMetadata_effect b _ i _ _ Hcur1 Hm1) as (Hp3 & _ & _).
    rewrite Hp3, Hp2, Hp1, list_insert_insert_eq.
    f_equal. rewrite lookup_insert_eq. cbn [or_empty truthy spread].
    rewrite obj_set_set. unfold panel_setMetadata. cbn [model cells activeCell].
    rewrite Hm. by rewrite insert_insert_eq. }
  split; apply H.
Qed.

(** X6: the picker shows the theme it has just stored: after
    [updateMetadata] with a non-empty theme [t] on a notebook with a model,
    whatever was under ['rise'] before, [render] finds [t] as the active
    theme; and on a notebook with nothing under ['rise'], or after an empty
    theme was stored, it falls back to ['black']. *)
Theorem render_after_updateMetadata (t : string) (w : World) (i : nat)
    (p : NotebookPanel) (m : gmap string json) :
  tracker_current w = Some (i, p) -> model p = Some m ->
  (render (updateMetadata t w)).1
  = (if String.eqb t "" then JStr "black" else JStr t)
  /\ (m !! "rise" = None -> (render w).1 = JStr "black").
Proof.
  intros Hcur Hm. split.
  - destruct (updateMetadata_after t w i p m Hcur Hm) as [Hcur1 Hm1].
    pose proof Hcur1 as [_ Hl1]%tracker_current_Some.
    unfold render. rewrite Hcur1, Hm1. unfold getMetadata. cbn [fst snd].
    rewrite Hl1, Hm1, lookup_insert_eq. cbn [or_empty truthy get_named].
    rewrite obj_get_set_eq. simpl. by destruct (String.eqb t "").
  - intros Hnone. pose proof Hcur as [_ Hl]%tracker_current_Some.
    unfold render. rewrite Hcur, Hm. unfold getMetadata. cbn [fst snd].
    by rewrite Hl, Hm, Hnone.
Qed.

(** [render_after_updateMetadata] over a value that is no record, and on a
    notebook without metadata. *)
Lemma render_after_updateMetadata_witness :
  (render (updateMetadata "dracula"
             (one_notebook {["rise" := JStr "not a record"]} ∅))).1
  = JStr "dracula"
  /\ (render (one_notebook ∅ ∅)).1 = JStr "black".
Proof.
  destruct (render_after_updateMetadata "dracula"
              (one_notebook {["rise" := JStr "not a record"]} ∅) 0
              {| model := Some {["rise" := JStr "not a record"]};
                 cells := [∅]; activeCell := Some 0 |}
              {["rise" := JStr "not a record"]})
    as [Hupd _]; [vm_compute; reflexivity ..|].
  destruct (render_after_updateMetadata "dracula" (one_notebook ∅ ∅) 0
              {| model := Some ∅; cells := [∅]; activeCell := Some 0 |} ∅)
    as [_ Hdef]; [vm_compute; reflexivity ..|].
  split; [exact Hupd|]. apply Hdef. vm_compute. reflexivity.
Defined.

(** X7: on a notebook that holds a truthy primitive under ['rise'] (a
    non-empty string, a number other than zero, [true]), the
    [RISE:set-theme] command given a theme throws at the assignment of
    ['theme']: it has read the metadata and done nothing else, so nothing is
    stored, no dialog is shown and the class of [body] is not added. *)
Theorem riseSetTheme_throws_on_primitive (args : jsobj) (w : World) (i : nat)
    (p : NotebookPanel) (m : gmap string json) (x : json) :
  tracker_current w = Some (i, p) -> model p = Some m ->
  m !! "rise" = Some x -> truthy_primitive x = true ->
  truthy (obj_get "theme" args) = true ->
  riseSetTheme args w = Threw (emit (EvGetMetadata i "rise") w)
  /\ panels (world_of (riseSetTheme args w)) = panels w
  /\ document (world_of (riseSetTheme args w)) = document w
  /\ new_calls w (world_of (riseSetTheme args w)) = [EvGetMetadata i "rise"].
Proof.
  intros Hcur Hm Hx Hprim Htr.
  assert (riseSetTheme args w = Threw (emit (EvGetMetadata i "rise") w))
    as Hthrow.
  { destruct (riseSetTheme_outcome args w)
      as [[Hno|Hno] _|i0 p0 m0 t r w' Hcur0 Hm0 _ _ Hset _ _ _
         |i0 p0 m0 t Hcur0 Hm0 _ _ _ Hr].
    - unfold has_model in Hno. by rewrite Hcur, Hm in Hno.
    - congruence.
    - simplify_eq. rewrite Hx in Hset.
      destruct x as [| b | n | s | |]; simpl in Hprim, Hset; try done;
        rewrite Hprim in Hset; done.
    - by simplify_eq. }
  rewrite Hthrow. split; [done|]. split; [done|]. split; [done|].
  by apply new_calls_app.
Qed.

(** [riseSetTheme_throws_on_primitive] on a notebook whose ['rise'] metadata
    is a string. *)
Lemma riseSetTheme_throws_on_primitive_witness :
  let w := one_notebook {["rise" := JStr "sky"]} ∅ in
  riseSetTheme [("theme", JStr "moon")] w
  = Threw (emit (EvGetMetadata 0 "rise") w).
Proof.
  intros w.
  destruct (riseSetTheme_throws_on_primitive [("theme", JStr "moon")] w 0
              {| model := Some {["rise" := JStr "sky"]};
                 cells := [∅]; activeCell := Some 0 |}
              {["rise" := JStr "sky"]} (JStr "sky"))
    as [Hthrow _]; [vm_compute; reflexivity ..|exact Hthrow].
Defined.

Lemma riseSetTheme_returned (args : jsobj) (w w' : World) :
  riseSetTheme args w = Returned w' ->
  exists w0, w' = body_classList_add "rise-enabled" w0
             /\ document w0 = document w.
Proof.
  unfold riseSetTheme. intros H.
  repeat case_match; simplify_eq; by eexists.
Qed.

(** X8: whenever the [RISE:set-theme] command returns (a theme was stored
    or not, a notebook is current or not), [body] has the class
    ['rise-enabled'] afterwards: the class list is what it was when it had
    the class, and has it added last otherwise. *)
Theorem riseSetTheme_adds_body_class (args : jsobj) (w w' : World) :
  riseSetTheme args w = Returned w' ->
  In "rise-enabled" (bodyClasses (document w'))
  /\ (In "rise-enabled" (bodyClasses (document w)) ->
      bodyClasses (document w') = bodyClasses (document w))
  /\ (~ In "rise-enabled" (bodyClasses (document w)) ->
      bodyClasses (document w')
      = bodyClasses (document w) ++ ["rise-enabled"]).
Proof.
  intros (w0 & -> & Hd)%riseSetTheme_returned.
  unfold body_classList_add. cbn [document emit set_document bodyClasses].
  rewrite Hd.
  destruct (existsb (String.eqb "rise-enabled") (bodyClasses (document w)))
    eqn:E.
  - apply existsb_exists in E as (c & Hin & ->%String.eqb_eq).
    split; [done|]. split; [done|]. by intros [].
  - assert (~ In "rise-enabled" (bodyClasses (document w))) as Hnot.
    { intros Hin. apply not_true_iff_false in E. apply E.
      apply existsb_exists. exists "rise-enabled".
      split; [done|apply String.eqb_refl]. }
    split; [apply in_app_iff; simpl; tauto|]. split; [done|done].
Qed.

(** [riseSetTheme_adds_body_class] for the command executed without a
    theme. *)
Lemma riseSetTheme_adds_body_class_witness :
  exists w',
    riseSetTheme [] (one_notebook ∅ ∅) = Returned w'
    /\ bodyClasses (document w') = ["rise-enabled"].
Proof.
  eexists. split; [reflexivity|].
  eapply (proj2 (proj2 (riseSetTheme_adds_body_class []
                          (one_notebook ∅ ∅) _ eq_refl))).
  intros [].
Defined.

(** ** The refresh of the previews *)

Lemma refresh_no_match (fs : list Iframe) (i : nat) :
  Forall (fun f => includes "reveal" (src f) = false) fs ->
  refresh i fs = (fs, []).
Proof.
  intros H. revert i. induction H as [|f fs Hf _ IH]; intros i; simpl.
  - done.
  - rewrite Hf, (IH (S i)). done.
Qed.

(** X9: [_refreshRisePreview] changes nothing but the iframes it reloads:
    their number, their order and the [src] of each are kept, as are the
    status element, the classes of [body] and all metadata; and when no
    iframe has ['reveal'] in its [src] nothing is reloaded and no call is
    made. *)
Theorem refreshRisePreview_keeps_src (w : World) :
  map src (iframes (document (_refreshRisePreview w)))
  = map src (iframes (document w))
  /\ statusEl (document (_refreshRisePreview w)) = statusEl (document w)
  /\ bodyClasses (document (_refreshRisePreview w))
     = bodyClasses (document w)
  /\ panels (_refreshRisePreview w) = panels w
  /\ (Forall (fun f => includes "reveal" (src f) = false)
        (iframes (document w)) ->
      iframes (document (_refreshRisePreview w)) = iframes (document w)
      /\ calls (_refreshRisePreview w) = calls w).
Proof.
  unfold _refreshRisePreview.
  destruct (refresh_spec (iframes (document w)) 0) as (Hr & _ & _).
  match goal with
  | |- context [foldl _ ?w0 ?evs] =>
      destruct (foldl_emit_rest evs w0) as (Hp & Hd & _);
      pose proof (foldl_emit_calls evs w0) as Hc
  end.
  rewrite Hp, Hd, Hc. cbn [document set_document set_iframes iframes statusEl
                           bodyClasses panels calls].
  split; [|split; [done|split; [done|split; [done|]]]].
  - rewrite Hr, map_map. apply map_ext. intros f.
    by destruct (includes "reveal" (src f)).
  - intros Hno. rewrite (refresh_no_match _ 0 Hno). simpl.
    by rewrite app_nil_r.
Qed.

(** [refreshRisePreview_keeps_src] with a preview and a help page open, and
    with no iframe at all. *)
Lemma refreshRisePreview_keeps_src_witness :
  let w := picker_open (one_notebook ∅ ∅) in
  map src (iframes (document (_refreshRisePreview w)))
  = ["http://localhost:8888/rise/reveal/nb.ipynb";
     "http://localhost:8888/doc/help.html"]
  /\ calls (_refreshRisePreview (one_notebook ∅ ∅)) = [].
Proof.
  intros w.
  destruct (refreshRisePreview_keeps_src w) as (Hsrc & _).
  destruct (refreshRisePreview_keeps_src (one_notebook ∅ ∅))
    as (_ & _ & _ & _ & Hnone).
  split; [rewrite Hsrc; reflexivity|].
  destruct Hnone as [_ Hc]; [constructor|exact Hc].
Defined.

(** ** The grid of the picker *)

Lemma filter_eqb_themes (t : string) :
  (In t themes ->
   List.filter (fun id => strict_eq (Some (JStr id)) (Some (JStr t))) themes
   = [t])
  /\ (~ In t themes ->
      List.filter (fun id => strict_eq (Some (JStr id)) (Some (JStr t)))
        themes = []).
Proof.
  split.
  - intros Hin. unfold themes in Hin. simpl in Hin.
    repeat (destruct Hin as [<-|Hin]; [vm_compute; reflexivity|]).
    destruct Hin.
  - intros Hnot.
    assert (forall l, (forall id, In id l -> id <> t) ->
              List.filter
                (fun id => strict_eq (Some (JStr id)) (Some (JStr t))) l
              = []) as H.
    { induction l as [|id l IH]; intros Hl; [done|]. simpl.
      assert (String.eqb id t = false) as ->.
      { apply String.eqb_neq, Hl. by left. }
      apply IH. intros id' Hin'. apply Hl. by right. }
    apply H. intros id Hin ->. by apply Hnot.
Qed.

(** X13: the picker highlights the theme it has stored: after
    [updateMetadata] with one of the twelve themes of the grid, [render]
    marks the item of that theme as active and no other; with a non-empty
    theme that is not in the grid no item is active; and on a notebook with
    nothing under ['rise'] the item ['black'] is. *)
Theorem picker_highlights_stored_theme (t : string) (w : World) (i : nat)
    (p : NotebookPanel) (m : gmap string json) :
  tracker_current w = Some (i, p) -> model p = Some m ->
  (In t themes -> active_items (updateMetadata t w) = [t])
  /\ (~ In t themes -> t <> "" -> active_items (updateMetadata t w) = [])
  /\ (m !! "rise" = None -> active_items w = ["black"]).
Proof.
  intros Hcur Hm.
  destruct (render_after_updateMetadata t w i p m Hcur Hm) as [Hupd Hdef].
  destruct (filter_eqb_themes t) as [Hin Hnot].
  unfold active_items. split; [|split].
  - intros Ht. rewrite Hupd.
    assert (String.eqb t "" = false) as ->.
    { apply String.eqb_neq. intros ->. unfold themes in Ht. simpl in Ht.
      intuition discriminate. }
    by apply Hin.
  - intros Ht Hne. rewrite Hupd. apply String.eqb_neq in Hne as ->.
    by apply Hnot.
  - intros Hnone. rewrite (Hdef Hnone).
    apply (proj1 (filter_eqb_themes "black")). unfold themes. simpl. tauto.
Qed.

(** [picker_highlights_stored_theme] for a theme of the grid, for another
    one, and without metadata. *)
Lemma picker_highlights_stored_theme_witness :
  active_items (updateMetadata "night" (one_notebook ∅ ∅)) = ["night"]
  /\ active_items (updateMetadata "my-own-theme" (one_notebook ∅ ∅)) = []
  /\ active_items (one_notebook ∅ ∅) = ["black"].
Proof.
  destruct (picker_highlights_stored_theme "night" (one_notebook ∅ ∅) 0
              {| model := Some ∅; cells := [∅]; activeCell := Some 0 |} ∅)
    as (Hin & _ & Hdef); [vm_compute; reflexivity ..|].
  destruct (picker_highlights_stored_theme "my-own-theme"
              (one_notebook ∅ ∅) 0
              {| model := Some ∅; cells := [∅]; activeCell := Some 0 |} ∅)
    as (_ & Hout & _); [vm_compute; reflexivity ..|].
  split; [apply Hin; vm_compute; tauto|].
  split; [apply Hout; [vm_compute; intuition discriminate|discriminate]|].
  apply Hdef. vm_compute. reflexivity.
Defined.

(** X14: a falsy value under ['rise'] ([null], [false], [0], the empty
    string) is treated like a missing one: the picker's [updateMetadata]
    with a theme [t], and the [RISE:set-theme] command with a non-empty
    theme [t], replace it by exactly [{ theme: t }]. *)
Theorem falsy_rise_is_replaced (w : World) (i : nat) (p : NotebookPanel)
    (m : gmap string json) (x : json) (t : string) (args : jsobj) :
  tracker_current w = Some (i, p) -> model p = Some m ->
  m !! "rise" = Some x -> truthy (Some x) = false ->
  obj_get "theme" args = Some (JStr t) ->
  metadata_at (updateMetadata t w) i "rise"
  = Some (JObj [("theme", JStr t)])
  /\ (t <> "" ->
      exists w', riseSetTheme args w = Returned w'
        /\ metadata_at w' i "rise" = Some (JObj [("theme", JStr t)])).
Proof.
  intros Hcur Hm Hx Hfalsy Ht.
  pose proof Hcur as [_ Hl]%tracker_current_Some.
  assert (or_empty (m !! "rise") = JObj []) as Hor.
  { rewrite Hx. unfold or_empty. by rewrite Hfalsy. }
  destruct (updateMetadata_effect t w i p m Hcur Hm) as (Hp & _ & _).
  rewrite Hor in Hp. simpl in Hp. split.
  - by destruct (metadata_at_setMetadata w _ i p m "rise" _ Hl Hm Hp).
  - intros Hne.
    destruct (riseSetTheme_written args w i p m (JStr t)
                (JObj [("theme", JStr t)]) Hcur Hm Ht)
      as (w' & Hr & _ & _ & Hmeta).
    + simpl. by apply String.eqb_neq in Hne as ->.
    + by rewrite Hor.
    + by exists w'.
Qed.

(** [falsy_rise_is_replaced] on a notebook whose ['rise'] metadata is
    [null]. *)
Lemma falsy_rise_is_replaced_witness :
  metadata_at (updateMetadata "sky" (one_notebook {["rise" := JNull]} ∅))
    0 "rise"
  = Some (JObj [("theme", JStr "sky")])
  /\ exists w',
       riseSetTheme [("theme", JStr "sky")]
         (one_notebook {["rise" := JNull]} ∅) = Returned w'
       /\ metadata_at w' 0 "rise" = Some (JObj [("theme", JStr "sky")]).
Proof.
  destruct (falsy_rise_is_replaced (one_notebook {["rise" := JNull]} ∅) 0
              {| model := Some {["rise" := JNull]}; cells := [∅];
                 activeCell := Some 0 |}
              {["rise" := JNull]} JNull "sky" [("theme", JStr "sky")])
    as (Hupd & Hcmd); [vm_compute; reflexivity ..|].
  split; [exact Hupd|]. apply Hcmd. discriminate.
Defined.

(** ** The commands that open the slide show, and the automatic launch *)

Lemma risePreview_calls (h : PreviewHost) (args : jsobj) (w : World)
    (i : nat) (p : NotebookPanel) :
  tracker_current w = Some (i, p) ->
  new_calls w (world_of (risePreview h args w))
  = (if strict_eq (obj_get "activate" args) (Some (JBool false))
     then [] else [EvActivateById (JStr (pretty i))])
    ++ EvSave i
       :: match saveSettles h with
          | Rejected => []
          | Fulfilled =>
              EvOpenPreview i
              :: match openSettles h with
                 | Rejected => []
                 | Fulfilled =>
                     [EvSetActiveCellIndex (activeCell p);
                      EvConnect "activeCellChanged"; EvConnect "disposed"]
                     ++ (if strict_eq (obj_get "fullscreen" args)
                              (Some (JBool true)) && readyResolved h
                         then [EvShowDialog "Switch to full screen"]
                         else [])
                 end
          end
  /\ ((exists w', risePreview h args w = Returned w')
      <-> saveSettles h = Fulfilled /\ openSettles h = Fulfilled).
Proof.
  intros Hcur. unfold risePreview, getCurrent, previewReady_then.
  rewrite Hcur.
  destruct (strict_eq (obj_get "activate" args) (Some (JBool false)));
    destruct (saveSettles h); destruct (openSettles h);
    destruct (strict_eq (obj_get "fullscreen" args) (Some (JBool true)));
    destruct (readyResolved h);
    cbn [negb fst snd andb world_of];
    (split;
     [apply new_calls_app; simpl; by rewrite <- ?app_assoc
     |split; [try (by intros [? [=]]); done
             |try (by intros [[=] [=]]); try (by intros [? [=]]);
              try (by intros [[=] ?]); by eexists]]).
Qed.

(** X10: with a current notebook, [RISE:slideshow] calls [save] and, only
    when the save is fulfilled, [window.open]; [RISE:preview] activates the
    notebook unless [activate] is [false], calls [save], asks the document
    manager for the preview only when the save is fulfilled, and only when
    the preview is open gives it the active cell and connects the two
    signals; the full screen dialog is shown before whatever awaits the
    command goes on only when [fullscreen] is [true] and the preview is
    ready already.  The
    preview command is rejected exactly when the save or the opening is.
    Where the commands are enabled, the notebook they save is the one shown
    in the shell. *)
Theorem open_commands_save_first (saved : Settled) (h : PreviewHost)
    (args : jsobj) (w : World) (i : nat) (p : NotebookPanel) :
  tracker_current w = Some (i, p) ->
  new_calls w (world_of (openRise saved w))
  = EvSave i :: match saved with
                | Fulfilled => [EvWindowOpen i]
                | Rejected => []
                end
  /\ new_calls w (world_of (risePreview h args w))
     = (if strict_eq (obj_get "activate" args) (Some (JBool false))
        then [] else [EvActivateById (JStr (pretty i))])
       ++ EvSave i
          :: match saveSettles h with
             | Rejected => []
             | Fulfilled =>
                 EvOpenPreview i
                 :: match openSettles h with
                    | Rejected => []
                    | Fulfilled =>
                        [EvSetActiveCellIndex (activeCell p);
                         EvConnect "activeCellChanged"; EvConnect "disposed"]
                        ++ (if strict_eq (obj_get "fullscreen" args)
                                 (Some (JBool true)) && readyResolved h
                            then [EvShowDialog "Switch to full screen"]
                            else [])
                    end
             end
  /\ ((exists w', risePreview h args w = Returned w')
      <-> saveSettles h = Fulfilled /\ openSettles h = Fulfilled)
  /\ (isEnabled w = true -> shell_notebook w = Some (i, p)).
Proof.
  intros Hcur. split; [|split; [|split]].
  - unfold openRise. rewrite Hcur.
    destruct saved; apply new_calls_app; simpl; by rewrite <- ?app_assoc.
  - by destruct (risePreview_calls h args w i p Hcur).
  - by destruct (risePreview_calls h args w i p Hcur).
  - unfold isEnabled. rewrite Hcur.
    destruct (shellCurrent w) as [[j| |]|] eqn:Hsc; try done.
    intros ->%Nat.eqb_eq.
    pose proof Hcur as [_ Hl]%tracker_current_Some.
    apply shell_notebook_Some. by split.
Qed.

(** [open_commands_save_first] for the preview asked without activation
    when the save is rejected, on the notebook shown in the shell. *)
Lemma open_commands_save_first_witness :
  let w := one_notebook ∅ ∅ in
  let h := {| saveSettles := Rejected; openSettles := Fulfilled;
              shellAfterOpen := None; mainAfterOpen := [];
              readyResolved := true |} in
  new_calls w (world_of (risePreview h [("activate", JBool false)] w))
  = [EvSave 0]
  /\ new_calls w (world_of (openRise Fulfilled w))
     = [EvSave 0; EvWindowOpen 0]
  /\ shell_notebook w
     = Some (0, {| model := Some ∅; cells := [∅]; activeCell := Some 0 |}).
Proof.
  intros w h.
  destruct (open_commands_save_first Fulfilled h [("activate", JBool false)]
              w 0 {| model := Some ∅; cells := [∅]; activeCell := Some 0 |})
    as (Hopen & Hprev & _ & Hen); [vm_compute; reflexivity|].
  split; [rewrite Hprev; reflexivity|]. split; [exact Hopen|].
  apply Hen. vm_compute. reflexivity.
Defined.







